(** * The Rich terminal dashboard of the Shopify app-store scraper

    A shallow embedding of [src/shopify_app_store/rich_ui.py] (class
    [RichDashboard]) and the properties of its signal handlers and of its
    renderer.

    Conventions of the embedding.
    - A Python [int] is a [Z].
    - A Python [float] is idealised as an exact rational ([Q]): rounding,
      overflow and the non-finite values are outside the model.  What a
      float operation can raise on finite values, [ZeroDivisionError], is
      modelled.
    - A Python [str] is the [string] of its UTF-8 bytes; the operations
      that count characters ([len], slicing, padding) count code points.
    - [self] is the record [Dashboard]; a method is a function in the
      monad [Py], which threads [self] and carries a raised exception.
    - [time.time()] is an input: a method takes the reading of the clock
      as a parameter, one for each call it makes. *)

From Stdlib Require Import ZArith QArith Qabs List String Ascii Bool Lia.
From Stdlib Require Import DecimalString.
Import ListNotations.

Local Open Scope string_scope.
Local Open Scope list_scope.
Local Open Scope Z_scope.

Infix "+++" := String.append (right associativity, at level 60).

(** ** Python strings *)

Module PyStr.

(** A byte [10xxxxxx] continues a UTF-8 encoded character. *)
Definition is_continuation (c : ascii) : bool :=
  let n := N_of_ascii c in (128 <=? n)%N && (n <? 192)%N.

(** [len(s)] *)
Fixpoint len (s : string) : nat :=
  match s with
  | EmptyString => O
  | String c r => if is_continuation c then len r else S (len r)
  end.

(** [s[:n]] *)
Fixpoint take (n : nat) (s : string) : string :=
  match s with
  | EmptyString => EmptyString
  | String c r =>
      if is_continuation c then String c (take n r)
      else match n with
           | O => EmptyString
           | S n' => String c (take n' r)
           end
  end.

(** [t * n]; a count below 1 gives the empty string. *)
Definition repeat (t : string) (n : Z) : string :=
  Nat.iter (Z.to_nat n) (String.append t) EmptyString.

(** [format(s, '<w')] *)
Definition ljust (w : nat) (s : string) : string :=
  s +++ repeat " " (Z.of_nat (w - len s)).

(** [s.split(sep)] for a separator of one character. *)
Fixpoint split (sep : ascii) (s : string) : list string :=
  match s with
  | EmptyString => [EmptyString]
  | String c r =>
      if Ascii.eqb c sep then EmptyString :: split sep r
      else match split sep r with
           | seg :: segs => String c seg :: segs
           | [] => [String c EmptyString]
           end
  end.

(** [s.rstrip(ch)] for a set of one character. *)
Fixpoint rstrip (ch : ascii) (s : string) : string :=
  match s with
  | EmptyString => EmptyString
  | String c r =>
      match rstrip ch r with
      | EmptyString => if Ascii.eqb c ch then EmptyString else String c EmptyString
      | r' => String c r'
      end
  end.

(** [sep.join(parts)] *)
Definition join (sep : string) (parts : list string) : string :=
  String.concat sep parts.

End PyStr.

(** ** Python numbers and their formats *)

Module PyNum.

(** [str(n)], [f"{n}"] *)
Definition str (n : Z) : string := NilZero.string_of_int (Z.to_int n).

(** Commas between groups of three digits; the digits come least
    significant first. *)
Fixpoint group3 (ds : list ascii) : list ascii :=
  match ds with
  | a :: b :: c :: ((_ :: _) as rest) => a :: b :: c :: ","%char :: group3 rest
  | _ => ds
  end.

(** [f"{n:,}"] *)
Definition fmt_thousands (n : Z) : string :=
  let digits := list_ascii_of_string (str (Z.abs n)) in
  let grouped := string_of_list_ascii (rev (group3 (rev digits))) in
  if n <? 0 then "-" +++ grouped else grouped.

(** [int(x)]: truncation towards zero. *)
Definition int (x : Q) : Z := Z.quot (Qnum x) (Zpos (Qden x)).

(** The nearest integer of a non-negative value, a tie going to the
    even neighbour. *)
Definition round_half_even (x : Q) : Z :=
  let d := Zpos (Qden x) in
  let n := Qnum x / d in
  match (2 * (Qnum x mod d) ?= d) with
  | Lt => n
  | Gt => n + 1
  | Eq => if Z.even n then n else n + 1
  end.

(** [s.rjust(w, '0')] of a digit string. *)
Definition zero_pad (w : nat) (s : string) : string :=
  PyStr.repeat "0" (Z.of_nat (w - String.length s)) +++ s.

(** [f"{x:.<d>f}"] *)
Definition fmt_fixed (d : nat) (x : Q) : string :=
  let p := 10 ^ Z.of_nat d in
  let n := round_half_even (Qabs x * inject_Z p) in
  let body :=
    match d with
    | O => str n
    | S _ => str (n / p) +++ "." +++ zero_pad d (str (n mod p))
    end in
  if Qle_bool 0 x then body else "-" +++ body.

(** [str(timedelta(seconds=n))]: the constructor normalises to whole
    days and 0 <= seconds < 86400. *)
Definition timedelta_str (n : Z) : string :=
  let days := n / 86400 in
  let seconds := n mod 86400 in
  let mm := seconds / 60 in
  let ss := seconds mod 60 in
  let hh := mm / 60 in
  let mm := mm mod 60 in
  let s := str hh +++ ":" +++ zero_pad 2 (str mm) +++ ":" +++ zero_pad 2 (str ss) in
  if days =? 0 then s
  else str days +++ " day" +++ (if Z.abs days =? 1 then "" else "s") +++ ", " +++ s.

End PyNum.

(** ** The Rich renderables the dashboard builds

    Only what the dashboard constructs is modelled: strings with markup,
    tables and grids with their columns and rows, and panels. *)

Module Rich.

(** [Table.add_column(header, style=, justify=, ratio=)] *)
Record Column := mkColumn {
  header : string;
  style : string;
  justify : string;
  ratio : option Z;
}.

(** [rich.table.Table]: the options the dashboard sets, the columns and
    the rows, over the type [R] of a cell. *)
Record Table (R : Type) := mkTable {
  title : option string;
  grid : bool;
  show_header : bool;
  header_style : string;
  title_style : string;
  expand : bool;
  padding : Z * Z;
  columns : list Column;
  rows : list (list R);
}.
Arguments mkTable {R}.
Arguments title {R}.
Arguments grid {R}.
Arguments show_header {R}.
Arguments header_style {R}.
Arguments title_style {R}.
Arguments expand {R}.
Arguments padding {R}.
Arguments columns {R}.
Arguments rows {R}.

#[warnings="-register-all"] Inductive Renderable :=
| Str (s : string)
| TableR (t : Table Renderable)
| Panel (body : Renderable) (panel_title : option string)
        (border_style : string) (panel_padding : Z * Z).

(** [Table(title=, show_header=, header_style=, expand=, title_style=, padding=)] *)
Definition new_table {R} (title : string) (show_header : bool) (header_style : string)
    (expand : bool) (title_style : string) (padding : Z * Z) : Table R :=
  mkTable (Some title) false show_header header_style title_style expand padding [] [].

(** [Table.grid(padding=)] *)
Definition new_grid {R} (padding : Z * Z) : Table R :=
  mkTable None true false "table.header" "" false padding [] [].

Definition add_column {R} (c : Column) (t : Table R) : Table R :=
  mkTable (title t) (grid t) (show_header t) (header_style t) (title_style t)
          (expand t) (padding t) (columns t ++ [c]) (rows t).

Definition add_row {R} (r : list R) (t : Table R) : Table R :=
  mkTable (title t) (grid t) (show_header t) (header_style t) (title_style t)
          (expand t) (padding t) (columns t) (rows t ++ [r]).

(** [add_column()] with no argument, and with [ratio=] alone. *)
Definition plain_column : Column := mkColumn "" "" "left" None.
Definition ratio_column (r : Z) : Column := mkColumn "" "" "left" (Some r).

(** [rich.live.Live]: the renderable it shows and whether it runs. *)
Record Live := mkLive {
  renderable : Renderable;
  refresh_per_second : Z;
  started : bool;
}.

Definition Live_start (l : Live) : Live :=
  mkLive (renderable l) (refresh_per_second l) true.
Definition Live_stop (l : Live) : Live :=
  mkLive (renderable l) (refresh_per_second l) false.
Definition Live_update (r : Renderable) (l : Live) : Live :=
  mkLive r (refresh_per_second l) (started l).

End Rich.

(** ** Python dictionaries and deques *)

Module PyDict.

(** A [dict] with string keys: the pairs in insertion order, a key at
    most once. *)
Definition dict (V : Type) := list (string * V).

(** [d.get(k)] *)
Fixpoint get {V} (k : string) (d : dict V) : option V :=
  match d with
  | [] => None
  | (k', v) :: d' => if (k' =? k)%string then Some v else get k d'
  end.

(** [k in d] *)
Definition contains {V} (k : string) (d : dict V) : bool :=
  match get k d with Some _ => true | None => false end.

(** [d[k] = v]: the value is replaced where the key is, and a new key
    goes last. *)
Fixpoint set {V} (k : string) (v : V) (d : dict V) : dict V :=
  match d with
  | [] => [(k, v)]
  | (k', v') :: d' => if (k' =? k)%string then (k', v) :: d' else (k', v') :: set k v d'
  end.

Definition keys {V} (d : dict V) : list string := map fst d.
Definition values {V} (d : dict V) : list V := map snd d.

(** [sum(values)] *)
Definition sum (vs : list Z) : Z := fold_left Z.add vs 0.

End PyDict.

Module PyDeque.

(** [dq.append(x)] on a [deque(maxlen=n)]: a full deque drops its
    leftmost item. *)
Definition append {A} (maxlen : nat) (x : A) (dq : list A) : list A :=
  match maxlen with
  | O => dq
  | S _ => if (List.length dq <? maxlen)%nat then dq ++ [x] else tl dq ++ [x]
  end.

End PyDeque.

(** ** The class [RichDashboard] *)

Module RichDashboard.
Import Rich.

(** An entry of the activity log: [(entry_type, name, detail)]. *)
Definition entry : Type := string * string * string.

(** The attributes of [self] that the methods read or write.  [live]
    holds the state of the [Live] object that [self.live] refers to, which
    its methods [start], [update] and [stop] change; [console] holds what
    [console.print] has printed.  [crawler], [progress] and [app_task_id]
    are stored by [__init__] and never used again. *)
Record Dashboard := mkDashboard {
  total_apps : Z;
  scraped_apps : Z;
  skipped_apps : Z;
  error_count : Z;
  rate_limit_count : Z;
  retry_count : Z;
  item_counts : PyDict.dict Z;
  activity_log : list entry;
  start_time : option Q;
  live : option Live;
  console : list Renderable;
}.

(** [deque(maxlen=8)] *)
Definition activity_log_maxlen : nat := 8.

(** [__init__] *)
Definition init : Dashboard := {|
  total_apps := 0;
  scraped_apps := 0;
  skipped_apps := 0;
  error_count := 0;
  rate_limit_count := 0;
  retry_count := 0;
  item_counts :=
    [("App", 0); ("KeyBenefit", 0); ("PricingPlan", 0); ("PricingPlanFeature", 0);
     ("Category", 0); ("AppCategory", 0); ("AppReview", 0)];
  activity_log := [];
  start_time := None;
  live := None;
  console := [];
|}.

(** Assignments to one attribute. *)
Definition with_total_apps (v : Z) (s : Dashboard) : Dashboard :=
  mkDashboard v (scraped_apps s) (skipped_apps s) (error_count s) (rate_limit_count s)
    (retry_count s) (item_counts s) (activity_log s) (start_time s) (live s) (console s).
Definition with_scraped_apps (v : Z) (s : Dashboard) : Dashboard :=
  mkDashboard (total_apps s) v (skipped_apps s) (error_count s) (rate_limit_count s)
    (retry_count s) (item_counts s) (activity_log s) (start_time s) (live s) (console s).
Definition with_skipped_apps (v : Z) (s : Dashboard) : Dashboard :=
  mkDashboard (total_apps s) (scraped_apps s) v (error_count s) (rate_limit_count s)
    (retry_count s) (item_counts s) (activity_log s) (start_time s) (live s) (console s).
Definition with_error_count (v : Z) (s : Dashboard) : Dashboard :=
  mkDashboard (total_apps s) (scraped_apps s) (skipped_apps s) v (rate_limit_count s)
    (retry_count s) (item_counts s) (activity_log s) (start_time s) (live s) (console s).
Definition with_rate_limit_count (v : Z) (s : Dashboard) : Dashboard :=
  mkDashboard (total_apps s) (scraped_apps s) (skipped_apps s) (error_count s) v
    (retry_count s) (item_counts s) (activity_log s) (start_time s) (live s) (console s).
Definition with_item_counts (v : PyDict.dict Z) (s : Dashboard) : Dashboard :=
  mkDashboard (total_apps s) (scraped_apps s) (skipped_apps s) (error_count s)
    (rate_limit_count s) (retry_count s) v (activity_log s) (start_time s) (live s)
    (console s).
Definition with_activity_log (v : list entry) (s : Dashboard) : Dashboard :=
  mkDashboard (total_apps s) (scraped_apps s) (skipped_apps s) (error_count s)
    (rate_limit_count s) (retry_count s) (item_counts s) v (start_time s) (live s)
    (console s).
Definition with_start_time (v : option Q) (s : Dashboard) : Dashboard :=
  mkDashboard (total_apps s) (scraped_apps s) (skipped_apps s) (error_count s)
    (rate_limit_count s) (retry_count s) (item_counts s) (activity_log s) v (live s)
    (console s).
Definition with_live (v : option Live) (s : Dashboard) : Dashboard :=
  mkDashboard (total_apps s) (scraped_apps s) (skipped_apps s) (error_count s)
    (rate_limit_count s) (retry_count s) (item_counts s) (activity_log s) (start_time s) v
    (console s).
Definition with_console (v : list Renderable) (s : Dashboard) : Dashboard :=
  mkDashboard (total_apps s) (scraped_apps s) (skipped_apps s) (error_count s)
    (rate_limit_count s) (retry_count s) (item_counts s) (activity_log s) (start_time s)
    (live s) v.

(** *** The monad of a method call *)

Inductive exn := ZeroDivisionError | TypeError | AttributeError | KeyError (key : string).

Inductive outcome (A : Type) :=
| Ok (a : A)
| Raise (e : exn).
Arguments Ok {A}.
Arguments Raise {A}.

(** A computation on [self]: its outcome and [self] afterwards.  What
    was assigned before an exception stays assigned. *)
Definition Py (A : Type) : Type := Dashboard -> outcome A * Dashboard.

Definition ret {A} (a : A) : Py A := fun self => (Ok a, self).

Definition bind {A B} (m : Py A) (k : A -> Py B) : Py B :=
  fun self =>
    match m self with
    | (Ok a, self') => k a self'
    | (Raise e, self') => (Raise e, self')
    end.

Definition raise {A} (e : exn) : Py A := fun self => (Raise e, self).

(** [self.f] *)
Definition getattr {A} (f : Dashboard -> A) : Py A := fun self => (Ok (f self), self).

(** [self.f = v], for [upd] one of the assignments above. *)
Definition setattr (upd : Dashboard -> Dashboard) : Py unit :=
  fun self => (Ok tt, upd self).

Notation "x <- m ;; k" := (bind m (fun x => k))
  (at level 61, m at next level, right associativity).
Notation "m ;; k" := (bind m (fun _ => k))
  (at level 61, right associativity).

(** [a / b] with a float operand. *)
Definition truediv (a b : Q) : Py Q :=
  if Qeq_bool b 0 then raise ZeroDivisionError else ret (a / b)%Q.

(** [d[k]] *)
Definition getitem (k : string) (d : PyDict.dict Z) : Py Z :=
  match PyDict.get k d with
  | Some v => ret v
  | None => raise (KeyError k)
  end.

(** [x > 0] on floats *)
Definition Qpositive (x : Q) : bool := negb (Qle_bool x 0).

(** [self.live.m(...)], for [m] a method of [Live] that [f] models. *)
Definition live_call (f : Live -> Live) : Py unit :=
  l <- getattr live ;;
  match l with
  | Some lv => setattr (with_live (Some (f lv)))
  | None => raise AttributeError
  end.

(** [self.console.print(r)] *)
Definition console_print (r : Renderable) : Py unit :=
  out <- getattr console ;;
  setattr (with_console (out ++ [r])).

(** *** The renderer *)

Definition newline : string := String "010"%char EmptyString.

(** The glyph of an item type, in [_build_layout]'s loop. *)
Definition emoji_of : PyDict.dict string :=
  [("App", "📱"); ("KeyBenefit", "✨"); ("PricingPlan", "💰");
   ("PricingPlanFeature", "📋"); ("Category", "🏷️");
   ("AppCategory", "🔗"); ("AppReview", "⭐")].

(** The body of the loop over [self.item_counts.items()]. *)
Definition items_row (items_table : Table Renderable) (kv : string * Z)
    : Table Renderable :=
  let '(item_type, count) := kv in
  let emoji := match PyDict.get item_type emoji_of with Some e => e | None => "•" end in
  add_row [Str (emoji +++ " " +++ item_type); Str (PyNum.fmt_thousands count)] items_table.

(** The body of the loop over [self.activity_log]. *)
Definition activity_line (activity_lines : list string) (e : entry) : list string :=
  let '(entry_type, name, detail) := e in
  if (entry_type =? "success")%string then
    activity_lines ++ ["  [green]✓[/] " +++ PyStr.ljust 35 name +++ " [dim]" +++ detail +++ "[/]"]
  else if (entry_type =? "error")%string then
    activity_lines ++ ["  [red]✗[/] " +++ PyStr.ljust 35 name +++ " [red]" +++ detail +++ "[/]"]
  else if (entry_type =? "rate_limit")%string then
    activity_lines ++ ["  [yellow]⚠[/] " +++ PyStr.ljust 35 name +++ " [yellow]" +++ detail +++ "[/]"]
  else if (entry_type =? "skip")%string then
    activity_lines ++ ["  [dim]⏭[/] " +++ PyStr.ljust 35 name +++ " [dim]" +++ detail +++ "[/]"]
  else activity_lines.

Definition waiting_text : string := "  Apps    [dim]Waiting for sitemap...[/]".

(** [_build_layout], with [now] the reading of [time.time()]. *)
Definition _build_layout (now : Q) : Py Renderable :=
  t0 <- getattr start_time ;;
  let elapsed : Q :=
    match t0 with
    | Some t => if Qeq_bool t 0 then 0%Q else (now - t)%Q
    | None => 0%Q
    end in
  let elapsed_str := PyNum.timedelta_str (PyNum.int elapsed) in
  scraped <- getattr scraped_apps ;;
  skipped <- getattr skipped_apps ;;
  total <- getattr total_apps ;;
  speed <- (if Qpositive elapsed
            then q <- truediv (inject_Z scraped) elapsed ;; ret (q * 60)%Q
            else ret 0%Q) ;;
  let header := "🛍️  Shopify App Store Scraper" in
  let progress_table := new_grid (0, 1) in
  let progress_table := add_column (ratio_column 1) progress_table in
  progress_text <-
    (if total >? 0 then
       q <- truediv (inject_Z (scraped + skipped)) (inject_Z total) ;;
       let pct := (q * 100)%Q in
       r <- truediv pct 100 ;;
       let filled := PyNum.int (r * 30)%Q in
       let bar := "[green]" +++ PyStr.repeat "█" filled +++ "[/][dim]"
                  +++ PyStr.repeat "░" (30 - filled) +++ "[/]" in
       ret ("  Apps    " +++ bar +++ "  [bold]" +++ PyNum.fmt_thousands (scraped + skipped)
            +++ "[/] / [bold]" +++ PyNum.fmt_thousands total +++ "[/]  [dim]("
            +++ PyNum.fmt_fixed 1 pct +++ "%)[/]")
     else ret waiting_text) ;;
  let progress_table := add_row [Str progress_text] progress_table in
  retries <- getattr retry_count ;;
  counts <- getattr item_counts ;;
  errors <- getattr error_count ;;
  rate_limits <- getattr rate_limit_count ;;
  let stats := new_grid (0, 2) in
  let stats := add_column plain_column stats in
  let stats := add_column plain_column stats in
  let stats := add_column plain_column stats in
  let stats := add_column plain_column stats in
  let stats :=
    add_row
      [Str ("  ⏱ Elapsed: [bold]" +++ elapsed_str +++ "[/]");
       Str ("📊 Speed: [bold cyan]" +++ PyNum.fmt_fixed 0 speed +++ "[/] apps/min");
       Str ("⏭ Skipped: [bold yellow]" +++ PyNum.fmt_thousands skipped +++ "[/]");
       Str ("🔄 Retries: [bold]" +++ PyNum.str retries +++ "[/]")] stats in
  let stats :=
    add_row
      [Str ("  ✅ Scraped: [bold green]" +++ PyNum.fmt_thousands scraped +++ "[/]");
       Str ("📦 Items: [bold cyan]"
            +++ PyNum.fmt_thousands (PyDict.sum (PyDict.values counts)) +++ "[/]");
       Str ("⚠️  Errors: [bold red]" +++ PyNum.str errors +++ "[/]");
       Str ("🚫 429s: [bold red]" +++ PyNum.str rate_limits +++ "[/]")] stats in
  let items_table := new_table "📊 Item Counts" true "bold" true "bold white" (0, 1) in
  let items_table := add_column (mkColumn "Type" "cyan" "left" (Some 2)) items_table in
  let items_table :=
    add_column (mkColumn "Count" "bold green" "right" (Some 1)) items_table in
  let items_table := fold_left items_row counts items_table in
  log <- getattr activity_log ;;
  let activity_lines := fold_left activity_line log [] in
  let activity_lines :=
    match activity_lines with
    | [] => activity_lines ++ ["  [dim]Waiting for first response...[/]"]
    | _ :: _ => activity_lines
    end in
  let activity_text := PyStr.join newline activity_lines in
  let layout_parts := new_grid (0, 0) in
  let layout_parts := add_column (ratio_column 1) layout_parts in
  let layout_parts := add_row [Str ""] layout_parts in
  let layout_parts := add_row [Str progress_text] layout_parts in
  let layout_parts := add_row [Str ""] layout_parts in
  let layout_parts := add_row [TableR stats] layout_parts in
  let layout_parts := add_row [Str ""] layout_parts in
  let side_by_side := new_grid (0, 1) in
  let side_by_side := add_column (ratio_column 2) side_by_side in
  let side_by_side := add_column (ratio_column 3) side_by_side in
  let side_by_side :=
    add_row [TableR items_table;
             Panel (Str activity_text) (Some "[bold]📝 Recent Activity[/]") "dim" (0, 1)]
            side_by_side in
  let layout_parts := add_row [TableR side_by_side] layout_parts in
  ret (Panel (TableR layout_parts) (Some ("[bold cyan]" +++ header +++ "[/]")) "cyan" (0, 1)).

(** [_refresh] *)
Definition _refresh (now : Q) : Py unit :=
  l <- getattr live ;;
  match l with
  | Some _ => layout <- _build_layout now ;; live_call (Live_update layout)
  | None => ret tt
  end.

(** [_build_summary] *)
Definition _build_summary (elapsed : Q) (reason : string) : Py (Table Renderable) :=
  let elapsed_str := PyNum.timedelta_str (PyNum.int elapsed) in
  scraped <- getattr scraped_apps ;;
  speed <- (if Qpositive elapsed
            then q <- truediv (inject_Z scraped) elapsed ;; ret (q * 60)%Q
            else ret 0%Q) ;;
  skipped <- getattr skipped_apps ;;
  counts <- getattr item_counts ;;
  errors <- getattr error_count ;;
  rate_limits <- getattr rate_limit_count ;;
  let summary := new_grid (0, 2) in
  let summary := add_column plain_column summary in
  let summary := add_column plain_column summary in
  let summary :=
    add_row [Str ("  Reason: [bold]" +++ reason +++ "[/]");
             Str ("Duration: [bold]" +++ elapsed_str +++ "[/]")] summary in
  let summary :=
    add_row [Str ("  Scraped: [bold green]" +++ PyNum.fmt_thousands scraped +++ "[/] apps");
             Str ("Skipped: [bold yellow]" +++ PyNum.fmt_thousands skipped +++ "[/] apps")]
            summary in
  let summary :=
    add_row [Str ("  Total Items: [bold cyan]"
                  +++ PyNum.fmt_thousands (PyDict.sum (PyDict.values counts)) +++ "[/]");
             Str ("Speed: [bold]" +++ PyNum.fmt_fixed 0 speed +++ "[/] apps/min")]
            summary in
  let summary :=
    add_row [Str ("  Errors: [bold red]" +++ PyNum.str errors +++ "[/]");
             Str ("Rate Limits: [bold red]" +++ PyNum.str rate_limits +++ "[/]")]
            summary in
  let items_detail :=
    PyStr.join " | "
      (map (fun kv => fst kv +++ ": [bold]" +++ PyNum.fmt_thousands (snd kv) +++ "[/]")
           (filter (fun kv => snd kv >? 0) counts)) in
  let summary :=
    match items_detail with
    | EmptyString => summary
    | String _ _ =>
        let summary := add_row [Str ""; Str ""] summary in
        add_row [Str ("  [dim]" +++ items_detail +++ "[/]"); Str ""] summary
    end in
  ret summary.

(** *** The signal handlers and the methods the spider calls *)

(** What the handlers read of a Scrapy response, request and failure. *)
Record Response := mkResponse { response_url : string; status : Z }.
Record Request := mkRequest { request_url : string }.
(** [failure_value] is [str(failure.value)]. *)
Record Failure := mkFailure { failure_value : string }.

(** [spider_opened]; the clock is read for [start_time] and again by
    [_build_layout].  The assignment [spider._rich_ui = self] is to the
    spider and leaves [self] as it is. *)
Definition spider_opened (t_start t_layout : Q) : Py unit :=
  setattr (with_start_time (Some t_start)) ;;
  layout <- _build_layout t_layout ;;
  setattr (with_live (Some (mkLive layout 2 false))) ;;
  live_call Live_start.

(** [spider_closed] *)
Definition spider_closed (now : Q) (reason : string) : Py unit :=
  l <- getattr live ;;
  (match l with
   | Some _ => live_call Live_stop
   | None => ret tt
   end) ;;
  t0 <- getattr start_time ;;
  elapsed <- (match t0 with
              | Some t => ret (now - t)%Q
              | None => raise TypeError
              end) ;;
  console_print (Str "") ;;
  summary <- _build_summary elapsed reason ;;
  console_print (Panel (TableR summary) (Some "[bold cyan]🛍️  Scraping Complete[/]")
                       "cyan" (0, 1)).

(** [item_scraped]; [class_name] is [type(item).__name__]. *)
Definition item_scraped (now : Q) (class_name : string) : Py unit :=
  counts <- getattr item_counts ;;
  (if PyDict.contains class_name counts then
     v <- getitem class_name counts ;;
     setattr (with_item_counts (PyDict.set class_name (v + 1) counts))
   else ret tt) ;;
  _refresh now.

(** [self.activity_log.append(e)] *)
Definition log_append (e : entry) : Py unit :=
  log <- getattr activity_log ;;
  setattr (with_activity_log (PyDeque.append activity_log_maxlen e log)).

(** [spider_error] *)
Definition spider_error (now : Q) (failure : option Failure) (response : option Response)
    : Py unit :=
  n <- getattr error_count ;;
  setattr (with_error_count (n + 1)) ;;
  let app_name :=
    match response with
    | Some r => last (PyStr.split "/" (response_url r)) ""
    | None => "unknown"
    end in
  let error_msg :=
    match failure with
    | Some f => PyStr.take 60 (failure_value f)
    | None => "Unknown error"
    end in
  log_append ("error", app_name, error_msg) ;;
  _refresh now.

(** [response_received] *)
Definition response_received (now : Q) (response : Response) (request : Request)
    : Py unit :=
  if status response =? 429 then
    n <- getattr rate_limit_count ;;
    setattr (with_rate_limit_count (n + 1)) ;;
    let app_name := last (PyStr.split "/" (request_url request)) "" in
    log_append ("rate_limit", app_name, "429 Rate Limited") ;;
    _refresh now
  else ret tt.

(** [notify_scraped] *)
Definition notify_scraped (now : Q) (app_url : string) : Py unit :=
  n <- getattr scraped_apps ;;
  setattr (with_scraped_apps (n + 1)) ;;
  let app_name := last (PyStr.split "/" (PyStr.rstrip "/" app_url)) "" in
  counts <- getattr item_counts ;;
  let item_count := PyDict.sum (PyDict.values counts) in
  apps <- getitem "App" counts ;;
  log_append ("success", app_name, PyNum.str apps +++ " apps total") ;;
  _refresh now.

(** [notify_skipped] *)
Definition notify_skipped (now : Q) : Py unit :=
  n <- getattr skipped_apps ;;
  setattr (with_skipped_apps (n + 1)) ;;
  _refresh now.

(** [set_total_apps] *)
Definition set_total_apps (now : Q) (count : Z) : Py unit :=
  setattr (with_total_apps count) ;;
  _refresh now.

(** *** Runs of the dashboard *)

(** A call that Scrapy or the spider makes on the dashboard, with the
    clock readings of that call. *)
Inductive event :=
| SpiderOpened (t_start t_layout : Q)
| SpiderClosed (now : Q) (reason : string)
| ItemScraped (now : Q) (class_name : string)
| SpiderError (now : Q) (failure : option Failure) (response : option Response)
| ResponseReceived (now : Q) (response : Response) (request : Request)
| NotifyScraped (now : Q) (app_url : string)
| NotifySkipped (now : Q)
| SetTotalApps (now : Q) (count : Z).

Definition dispatch (e : event) : Py unit :=
  match e with
  | SpiderOpened t_start t_layout => spider_opened t_start t_layout
  | SpiderClosed now reason => spider_closed now reason
  | ItemScraped now class_name => item_scraped now class_name
  | SpiderError now failure response => spider_error now failure response
  | ResponseReceived now response request => response_received now response request
  | NotifyScraped now app_url => notify_scraped now app_url
  | NotifySkipped now => notify_skipped now
  | SetTotalApps now count => set_total_apps now count
  end.

(** [self] after a call, whether it returned or raised. *)
Definition after (e : event) (s : Dashboard) : Dashboard := snd (dispatch e s).

(** [self] after the calls of [es], in order. *)
Definition run (es : list event) (s : Dashboard) : Dashboard :=
  fold_left (fun s e => after e s) es s.

(** The states a dashboard goes through, from [__init__] on. *)
Inductive reachable : Dashboard -> Prop :=
| reachable_init : reachable init
| reachable_step s e : reachable s -> reachable (after e s).

End RichDashboard.

(** * The vocabulary of the properties *)

Import RichDashboard Rich.

(** The progress text of a known total, as [_build_layout] formats it. *)
Definition bar_text (scraped skipped total : Z) : string :=
  let pct := (inject_Z (scraped + skipped) / inject_Z total * 100)%Q in
  let filled := PyNum.int (pct / 100 * 30)%Q in
  "  Apps    "
  +++ ("[green]" +++ PyStr.repeat "█" filled +++ "[/][dim]"
       +++ PyStr.repeat "░" (30 - filled) +++ "[/]")
  +++ "  [bold]" +++ PyNum.fmt_thousands (scraped + skipped)
  +++ "[/] / [bold]" +++ PyNum.fmt_thousands total +++ "[/]  [dim]("
  +++ PyNum.fmt_fixed 1 pct +++ "%)[/]".

(** Accessors into the layout that [_build_layout] returns. *)
Definition layout_rows (v : Renderable) : list (list Renderable) :=
  match v with
  | Panel (TableR t) _ _ _ => rows t
  | _ => []
  end.

(** The row under the blank first row: the progress text. *)
Definition progress_row (v : Renderable) : list Renderable := nth 1 (layout_rows v) [].

(** The second cell of the first row of the stats grid: the speed. *)
Definition speed_cell (v : Renderable) : Renderable :=
  match nth 3 (layout_rows v) [] with
  | [TableR stats] => nth 1 (nth 0 (rows stats) []) (Str "")
  | _ => Str ""
  end.

(** The elapsed time as the specification has it: [now - startedAt],
    zero before the start. *)
Definition elapsed_seconds (s : Dashboard) (now : Q) : Q :=
  match start_time s with
  | Some t => (now - t)%Q
  | None => 0%Q
  end.

(** [elapsed], the first local of [_build_layout]. *)
Definition elapsed_of (s : Dashboard) (now : Q) : Q :=
  match start_time s with
  | Some t => if Qeq_bool t 0 then 0%Q else (now - t)%Q
  | None => 0%Q
  end.

(** The entry that [spider_error] logs. *)
Definition error_entry (failure : option Failure) (response : option Response) : entry :=
  ("error",
   match response with
   | Some r => last (PyStr.split "/" (response_url r)) ""
   | None => "unknown"
   end,
   match failure with
   | Some f => PyStr.take 60 (failure_value f)
   | None => "Unknown error"
   end).

(** The entry that [response_received] logs for a status 429. *)
Definition rate_limit_entry (request : Request) : entry :=
  ("rate_limit", last (PyStr.split "/" (request_url request)) "", "429 Rate Limited").

(** The entry that [notify_scraped] logs when the tally of [App] is [apps]. *)
Definition success_entry (app_url : string) (apps : Z) : entry :=
  ("success", last (PyStr.split "/" (PyStr.rstrip "/" app_url)) "",
   PyNum.str apps +++ " apps total").

(** [self] after [item_scraped], up to the live display. *)
Definition counted (class_name : string) (s : Dashboard) : Dashboard :=
  match PyDict.get class_name (item_counts s) with
  | Some v => with_item_counts (PyDict.set class_name (v + 1) (item_counts s)) s
  | None => s
  end.

(** The last [n] items of a list. *)
Definition lastn {A} (n : nat) (l : list A) : list A := skipn (List.length l - n) l.

(** The keys of [item_counts], as [__init__] sets them. *)
Definition item_types : list string :=
  ["App"; "KeyBenefit"; "PricingPlan"; "PricingPlanFeature"; "Category"; "AppCategory";
   "AppReview"].

(** The type and the subject of an entry, its first two components. *)
Definition entry_type (e : entry) : string := fst (fst e).
Definition subject (e : entry) : string := snd (fst e).

(** The entry types that a handler logs. *)
Definition logged_type (e : entry) : Prop :=
  entry_type e = "success" \/ entry_type e = "error" \/ entry_type e = "rate_limit".

(** What holds of [self] from [__init__] on. *)
Record invariant (s : Dashboard) : Prop := mkInvariant {
  inv_scraped : 0 <= scraped_apps s;
  inv_skipped : 0 <= skipped_apps s;
  inv_errors : 0 <= error_count s;
  inv_rate_limits : 0 <= rate_limit_count s;
  inv_keys : PyDict.keys (item_counts s) = item_types;
  inv_values : Forall (fun v => 0 <= v) (PyDict.values (item_counts s));
  inv_log_length : (List.length (activity_log s) <= activity_log_maxlen)%nat;
  inv_log_types : Forall logged_type (activity_log s);
}.

(** A crawl error as Scrapy delivers it: the clock reading, the failure
    and the response. *)
Definition crawl_error (x : Q * option Failure * option Response) : event :=
  let '(now, failure, response) := x in SpiderError now failure response.

(** The entry that a crawl error logs. *)
Definition logged_error (x : Q * option Failure * option Response) : entry :=
  let '(_, failure, response) := x in error_entry failure response.

(** The two calls of [_build_layout] one after the other, on the same
    clock reading. *)
Definition render_twice (now : Q) : Py (Renderable * Renderable) :=
  v1 <- _build_layout now ;;
  v2 <- _build_layout now ;;
  ret (v1, v2).

(** Nine crawl errors with the subjects [app1] to [app9]. *)
Definition nine_errors : list (Q * option Failure * option Response) :=
  map (fun n => (inject_Z n, Some (mkFailure "timeout"),
                 Some (mkResponse ("https://apps.shopify.com/app" +++ PyNum.str n) 500)))
      [1; 2; 3; 4; 5; 6; 7; 8; 9].

(** Scenario A of the specification: a total of 100, three pages scraped
    and two skipped, with no live display. *)
Definition scenario_A : list event :=
  [SetTotalApps 10 100; NotifyScraped 11 "https://apps.shopify.com/a";
   NotifyScraped 12 "https://apps.shopify.com/a"; NotifyScraped 13 "https://apps.shopify.com/a";
   NotifySkipped 14; NotifySkipped 15].

(** ** The vocabulary of the further properties *)

(** The layout that [_build_layout] returns on [s] at the reading [now]. *)
Definition layout_at (now : Q) (s : Dashboard) : Renderable :=
  match fst (_build_layout now s) with
  | Ok v => v
  | Raise _ => Str ""
  end.

(** The table that [_build_summary] returns on [s]. *)
Definition summary_at (elapsed : Q) (reason : string) (s : Dashboard) : Table Renderable :=
  match fst (_build_summary elapsed reason s) with
  | Ok t => t
  | Raise _ => new_grid (0, 0)
  end.

(** [self] after [self._refresh()]: the live display, when there is one,
    shows the layout of [s] at [now]. *)
Definition refreshed (now : Q) (s : Dashboard) : Dashboard :=
  with_live (option_map (Live_update (layout_at now s)) (live s)) s.

(** The clock reading at which the handler of [e] builds a layout, when
    it builds one. *)
Definition refresh_clock (e : event) : option Q :=
  match e with
  | SpiderOpened _ t_layout => Some t_layout
  | SpiderClosed _ _ => None
  | ItemScraped now _ => Some now
  | SpiderError now _ _ => Some now
  | ResponseReceived now response _ => if status response =? 429 then Some now else None
  | NotifyScraped now _ => Some now
  | NotifySkipped now => Some now
  | SetTotalApps now _ => Some now
  end.

(** The calls of one kind in a sequence of calls. *)
Definition is_notify_scraped (e : event) : bool :=
  match e with NotifyScraped _ _ => true | _ => false end.
Definition is_notify_skipped (e : event) : bool :=
  match e with NotifySkipped _ => true | _ => false end.
Definition is_spider_error (e : event) : bool :=
  match e with SpiderError _ _ _ => true | _ => false end.
Definition is_rate_limited (e : event) : bool :=
  match e with ResponseReceived _ response _ => status response =? 429 | _ => false end.
Definition is_item (class_name : string) (e : event) : bool :=
  match e with ItemScraped _ c => (class_name =? c)%string | _ => false end.
Definition is_known_item (e : event) : bool :=
  match e with
  | ItemScraped _ c => existsb (fun k => (k =? c)%string) item_types
  | _ => false
  end.

Definition count (p : event -> bool) (es : list event) : Z :=
  Z.of_nat (List.length (filter p es)).

(** The argument of the last [set_total_apps] of a sequence of calls, 0
    when there is none. *)
Definition last_total (es : list event) : Z :=
  fold_left (fun t e => match e with SetTotalApps _ n => n | _ => t end) es 0.

(** The entries that the handler of [e] appends to the log in the state [s]. *)
Definition logged (e : event) (s : Dashboard) : list entry :=
  match e with
  | SpiderError _ failure response => [error_entry failure response]
  | ResponseReceived _ response request =>
      if status response =? 429 then [rate_limit_entry request] else []
  | NotifyScraped _ app_url =>
      match PyDict.get "App" (item_counts s) with
      | Some apps => [success_entry app_url apps]
      | None => []
      end
  | _ => []
  end.

(** The entries appended along a sequence of calls from [s], oldest first. *)
Fixpoint history (es : list event) (s : Dashboard) : list entry :=
  match es with
  | [] => []
  | e :: es' => logged e s ++ history es' (after e s)
  end.

(** The entry that the handler of [e] leaves last in the log. *)
Definition last_logged (e : event) (s : Dashboard) : entry :=
  last (activity_log (after e s)) (EmptyString, EmptyString, EmptyString).

Definition detail (e : entry) : string := snd e.

(** The string [s] has no character [c]. *)
Definition lacks (c : ascii) (s : string) : Prop := ~ In c (list_ascii_of_string s).


(** The rows of the item table and the text of the activity panel in the
    layout that [_build_layout] returns. *)
Definition side_cells (v : Renderable) : list Renderable :=
  match nth 5 (layout_rows v) [] with
  | [TableR side] => nth 0 (rows side) []
  | _ => []
  end.
Definition items_rows (v : Renderable) : list (list Renderable) :=
  match nth 0 (side_cells v) (Str "") with
  | TableR items_table => rows items_table
  | _ => []
  end.
Definition activity_text (v : Renderable) : string :=
  match nth 1 (side_cells v) (Str "") with
  | Panel (Str text) _ _ _ => text
  | _ => EmptyString
  end.

(** The cell of the stats grid in row [i], column [j]. *)
Definition stats_cell (i j : nat) (v : Renderable) : Renderable :=
  match nth 3 (layout_rows v) [] with
  | [TableR stats] => nth j (nth i (rows stats) []) (Str "")
  | _ => Str ""
  end.

(** The glyph of an item type in the item table. *)
Definition glyph (item_type : string) : string :=
  match PyDict.get item_type emoji_of with
  | Some e => e
  | None => "•"
  end.



(** * Properties *)

(** ** The formats, on values checked against Python *)

Example fmt_thousands_ex :
  map PyNum.fmt_thousands [0; 999; 1000; -1000; 1234567; -123456789] =
  ["0"; "999"; "1,000"; "-1,000"; "1,234,567"; "-123,456,789"].
Proof. reflexivity. Qed.

Example fmt_fixed_ex :
  (map (PyNum.fmt_fixed 1) [5 # 1; 1 # 8; 3 # 8; 15 # 16; -1 # 16; 999 # 64]%Q,
   map (PyNum.fmt_fixed 0) [0; 1 # 2; 3 # 2; 5 # 2; 7 # 2; -1 # 4; 12345 # 16]%Q) =
  (["5.0"; "0.1"; "0.4"; "0.9"; "-0.1"; "15.6"],
   ["0"; "0"; "2"; "2"; "4"; "-0"; "772"]).
Proof. reflexivity. Qed.

Example int_ex : map PyNum.int [7 # 2; -7 # 2; 1 # 3; -1 # 3; 30 # 1]%Q = [3; -3; 0; 0; 30].
Proof. reflexivity. Qed.

Example timedelta_str_ex :
  map PyNum.timedelta_str [0; 59; 3661; 86399; 86400; 200000; -1; -86401] =
  ["0:00:00"; "0:00:59"; "1:01:01"; "23:59:59"; "1 day, 0:00:00"; "2 days, 7:33:20";
   "-1 day, 23:59:59"; "-2 days, 23:59:59"].
Proof. reflexivity. Qed.

Example split_rstrip_ex :
  (map (PyStr.split "/") [""; "/"; "a"; "a/"; "a//b"],
   map (PyStr.rstrip "/") [""; "/"; "a"; "a//"; "/a/b/"],
   last (PyStr.split "/" (PyStr.rstrip "/" "https://apps.shopify.com/oberlo//")) "") =
  ([[""]; [""; ""]; ["a"]; ["a"; ""]; ["a"; ""; "b"]],
   [""; ""; "a"; "a"; "/a/b"],
   "oberlo").
Proof. reflexivity. Qed.

Example code_points_ex :
  (map PyStr.len ["abc"; "héllo"; "a█b"; "日本語"], PyStr.take 2 "a█b", PyStr.take 1 "日本語",
   PyStr.ljust 4 "█") =
  ([3; 5; 3; 3]%nat, "a█", "日", "█   ").
Proof. reflexivity. Qed.

(** ** The monad and the guarded divisions *)

Lemma truediv_ok (a b : Q) (s : Dashboard) :
  Qeq_bool b 0 = false -> truediv a b s = (Ok (a / b)%Q, s).
Proof. intros H. unfold truediv. rewrite H. reflexivity. Qed.

Lemma truediv_by_zero (a b : Q) (s : Dashboard) :
  Qeq_bool b 0 = true -> truediv a b s = (Raise ZeroDivisionError, s).
Proof. intros H. unfold truediv. rewrite H. reflexivity. Qed.

Lemma Qpositive_nonzero (x : Q) : Qpositive x = true -> Qeq_bool x 0 = false.
Proof.
  unfold Qpositive. intros H. apply negb_true_iff in H.
  destruct (Qeq_bool x 0) eqn:E; [|reflexivity].
  apply Qeq_bool_iff in E.
  assert (Qle_bool x 0 = true) by (apply Qle_bool_iff; rewrite E; apply Qle_refl).
  congruence.
Qed.

Lemma Qpositive_zero (x : Q) : (x == 0)%Q -> Qpositive x = false.
Proof.
  intros E. unfold Qpositive. apply negb_false_iff, Qle_bool_iff.
  rewrite E. apply Qle_refl.
Qed.

Lemma inject_Z_nonzero (n : Z) : (n >? 0) = true -> Qeq_bool (inject_Z n) 0 = false.
Proof.
  intros H. apply Z.gtb_lt in H. unfold Qeq_bool, inject_Z; simpl.
  apply Z.eqb_neq. lia.
Qed.

Lemma bind_getattr {A B} (f : Dashboard -> A) (k : A -> Py B) (s : Dashboard) :
  bind (getattr f) k s = k (f s) s.
Proof. reflexivity. Qed.

Lemma bind_setattr {B} (upd : Dashboard -> Dashboard) (k : unit -> Py B) (s : Dashboard) :
  bind (setattr upd) k s = k tt (upd s).
Proof. reflexivity. Qed.

Lemma bind_ok {A B} (m : Py A) (k : A -> Py B) (s s' : Dashboard) (a : A) :
  m s = (Ok a, s') -> bind m k s = k a s'.
Proof. intros H. unfold bind. rewrite H. reflexivity. Qed.

Lemma bind_raise {A B} (m : Py A) (k : A -> Py B) (s s' : Dashboard) (e : exn) :
  m s = (Raise e, s') -> bind m k s = (Raise e, s').
Proof. intros H. unfold bind. rewrite H. reflexivity. Qed.

(** One step of a method body: an attribute is read or assigned. *)
Ltac py_step :=
  first [ rewrite bind_getattr | rewrite bind_setattr ]; cbv beta zeta.

(** A step that runs a computation known to return, by the lemma [L]. *)
Ltac py_bind L := erewrite bind_ok by (apply L); cbv beta zeta.

(** The speed of [_build_layout] and [_build_summary]: the division is
    made for a positive [elapsed] alone. *)
Lemma speed_ok (scraped : Z) (elapsed : Q) (s : Dashboard) :
  (if Qpositive elapsed
   then q <- truediv (inject_Z scraped) elapsed ;; ret (q * 60)%Q
   else ret 0%Q) s
  = (Ok (if Qpositive elapsed then (inject_Z scraped / elapsed * 60)%Q else 0%Q), s).
Proof.
  destruct (Qpositive elapsed) eqn:E; [|reflexivity].
  unfold bind. rewrite (truediv_ok _ _ _ (Qpositive_nonzero _ E)). reflexivity.
Qed.

Lemma build_layout_total (now : Q) (s : Dashboard) :
  exists v, _build_layout now s = (Ok v, s).
Proof.
  unfold _build_layout. repeat py_step.
  py_bind speed_ok.
  destruct (total_apps s >? 0) eqn:T.
  - erewrite bind_ok.
    2:{ erewrite bind_ok by (apply truediv_ok, inject_Z_nonzero, T).
        erewrite bind_ok by (apply truediv_ok; reflexivity).
        reflexivity. }
    repeat py_step. eexists. reflexivity.
  - erewrite bind_ok by reflexivity.
    repeat py_step. eexists. reflexivity.
Qed.

Lemma progress_ok (scraped skipped total : Z) (s : Dashboard) :
  (if total >? 0 then
     q <- truediv (inject_Z (scraped + skipped)) (inject_Z total) ;;
     let pct := (q * 100)%Q in
     r <- truediv pct 100 ;;
     let filled := PyNum.int (r * 30)%Q in
     let bar := "[green]" +++ PyStr.repeat "█" filled +++ "[/][dim]"
                +++ PyStr.repeat "░" (30 - filled) +++ "[/]" in
     ret ("  Apps    " +++ bar +++ "  [bold]" +++ PyNum.fmt_thousands (scraped + skipped)
          +++ "[/] / [bold]" +++ PyNum.fmt_thousands total +++ "[/]  [dim]("
          +++ PyNum.fmt_fixed 1 pct +++ "%)[/]")
   else ret waiting_text) s
  = (Ok (if total >? 0 then bar_text scraped skipped total else waiting_text), s).
Proof.
  destruct (total >? 0) eqn:T; [|reflexivity].
  erewrite bind_ok by (apply truediv_ok, inject_Z_nonzero, T).
  cbv zeta. erewrite bind_ok by (apply truediv_ok; reflexivity).
  reflexivity.
Qed.

(** [_build_layout] returns, leaves [self] as it is, and shows the
    progress text and the speed of the branch its guards select. *)
Lemma build_layout_view (now : Q) (s : Dashboard) :
  exists v,
    _build_layout now s = (Ok v, s) /\
    progress_row v =
      [Str (if total_apps s >? 0
            then bar_text (scraped_apps s) (skipped_apps s) (total_apps s)
            else waiting_text)] /\
    speed_cell v =
      Str ("📊 Speed: [bold cyan]"
           +++ PyNum.fmt_fixed 0
                 (if Qpositive (elapsed_of s now)
                  then (inject_Z (scraped_apps s) / elapsed_of s now * 60)%Q
                  else 0%Q)
           +++ "[/] apps/min").
Proof.
  unfold _build_layout. repeat py_step.
  py_bind speed_ok. py_bind progress_ok.
  repeat py_step. eexists. split; [reflexivity|]. split; reflexivity.
Qed.

(** The layout is a function of the clock reading and of the data
    attributes: the live display and the console are not read. *)
Lemma build_layout_reads_data (now : Q) (s : Dashboard) (l : option Live)
    (c : list Renderable) :
  fst (_build_layout now (with_console c (with_live l s))) = fst (_build_layout now s).
Proof.
  destruct s as [tot scr skp err rl rt cnt lg st lv con].
  unfold with_console, with_live; cbn [total_apps scraped_apps skipped_apps error_count rate_limit_count retry_count
       item_counts activity_log start_time live console].
  unfold _build_layout. repeat py_step. cbn [total_apps scraped_apps skipped_apps error_count rate_limit_count retry_count
       item_counts activity_log start_time live console].
  py_bind speed_ok. py_bind progress_ok. repeat py_step.
  py_bind speed_ok. py_bind progress_ok. repeat py_step.
  reflexivity.
Qed.

(** ** What each handler does to [self] *)

Lemma with_live_same (s : Dashboard) : with_live (live s) s = s.
Proof. destruct s; reflexivity. Qed.

(** [_refresh] returns and assigns nothing but the live display. *)
Lemma refresh_spec (now : Q) (s : Dashboard) :
  exists l', _refresh now s = (Ok tt, with_live l' s) /\ (live s = None -> l' = None).
Proof.
  unfold _refresh. py_step. destruct (live s) as [lv|] eqn:L.
  - destruct (build_layout_total now s) as [v Hv].
    erewrite bind_ok by exact Hv. unfold live_call. py_step. rewrite L.
    eexists. split; [reflexivity | discriminate].
  - exists None. split; [|reflexivity].
    rewrite <- L, with_live_same. reflexivity.
Qed.

(** A handler that ends in [self._refresh()]. *)
Lemma then_refresh (m : Py unit) (now : Q) (s0 s s1 : Dashboard) :
  m s = (Ok tt, s1) -> live s1 = live s0 ->
  exists l', (m ;; _refresh now) s = (Ok tt, with_live l' s1) /\
             (live s0 = None -> l' = None).
Proof.
  intros H L. destruct (refresh_spec now s1) as [l' [R N]].
  exists l'. split; [|rewrite <- L; exact N]. erewrite bind_ok by exact H. exact R.
Qed.

Lemma log_append_spec (e : entry) (s : Dashboard) :
  log_append e s =
  (Ok tt, with_activity_log (PyDeque.append activity_log_maxlen e (activity_log s)) s).
Proof. reflexivity. Qed.

Lemma notify_skipped_spec (now : Q) (s : Dashboard) :
  exists l', notify_skipped now s =
             (Ok tt, with_live l' (with_skipped_apps (skipped_apps s + 1) s)) /\
             (live s = None -> l' = None).
Proof.
  unfold notify_skipped. py_step.
  apply (then_refresh (setattr _)); reflexivity.
Qed.

Lemma set_total_apps_spec (now : Q) (count : Z) (s : Dashboard) :
  exists l', set_total_apps now count s = (Ok tt, with_live l' (with_total_apps count s)) /\
             (live s = None -> l' = None).
Proof. unfold set_total_apps. apply (then_refresh (setattr _)); reflexivity. Qed.

Lemma spider_error_spec (now : Q) (failure : option Failure) (response : option Response)
    (s : Dashboard) :
  exists l',
    spider_error now failure response s =
    (Ok tt,
     with_live l'
       (with_activity_log
          (PyDeque.append activity_log_maxlen (error_entry failure response) (activity_log s))
          (with_error_count (error_count s + 1) s))) /\
    (live s = None -> l' = None).
Proof.
  unfold spider_error. repeat py_step.
  apply (then_refresh (log_append _)); reflexivity.
Qed.

Lemma response_received_429 (now : Q) (response : Response) (request : Request)
    (s : Dashboard) :
  status response = 429 ->
  exists l',
    response_received now response request s =
    (Ok tt,
     with_live l'
       (with_activity_log
          (PyDeque.append activity_log_maxlen (rate_limit_entry request) (activity_log s))
          (with_rate_limit_count (rate_limit_count s + 1) s))) /\
    (live s = None -> l' = None).
Proof.
  intros H. unfold response_received. rewrite H, Z.eqb_refl. repeat py_step.
  apply (then_refresh (log_append _)); reflexivity.
Qed.

Lemma response_received_other (now : Q) (response : Response) (request : Request)
    (s : Dashboard) :
  status response <> 429 -> response_received now response request s = (Ok tt, s).
Proof.
  intros H. unfold response_received.
  apply Z.eqb_neq in H. rewrite H. reflexivity.
Qed.

Lemma notify_scraped_spec (now : Q) (app_url : string) (apps : Z) (s : Dashboard) :
  PyDict.get "App" (item_counts s) = Some apps ->
  exists l',
    notify_scraped now app_url s =
    (Ok tt,
     with_live l'
       (with_activity_log
          (PyDeque.append activity_log_maxlen (success_entry app_url apps) (activity_log s))
          (with_scraped_apps (scraped_apps s + 1) s))) /\
    (live s = None -> l' = None).
Proof.
  intros H. unfold notify_scraped. repeat py_step.
  unfold getitem. cbn [item_counts with_scraped_apps]. rewrite H.
  erewrite bind_ok by reflexivity.
  apply (then_refresh (log_append _)); reflexivity.
Qed.

(** Without the key [App] the method raises after the counter went up. *)
Lemma notify_scraped_no_App (now : Q) (app_url : string) (s : Dashboard) :
  PyDict.get "App" (item_counts s) = None ->
  notify_scraped now app_url s =
  (Raise (KeyError "App"), with_scraped_apps (scraped_apps s + 1) s).
Proof.
  intros H. unfold notify_scraped. repeat py_step.
  unfold getitem. cbn [item_counts with_scraped_apps]. rewrite H. reflexivity.
Qed.

Lemma item_scraped_spec (now : Q) (class_name : string) (s : Dashboard) :
  exists l', item_scraped now class_name s = (Ok tt, with_live l' (counted class_name s)) /\
             (live s = None -> l' = None).
Proof.
  unfold item_scraped. py_step. unfold counted, PyDict.contains, getitem.
  destruct (PyDict.get class_name (item_counts s)) as [v|] eqn:G.
  - apply (then_refresh (_ ;; _)); reflexivity.
  - apply (then_refresh (ret tt)); reflexivity.
Qed.

Lemma spider_opened_spec (t_start t_layout : Q) (s : Dashboard) :
  exists v,
    spider_opened t_start t_layout s =
    (Ok tt, with_live (Some (mkLive v 2 true)) (with_start_time (Some t_start) s)).
Proof.
  unfold spider_opened. py_step.
  destruct (build_layout_total t_layout (with_start_time (Some t_start) s)) as [v Hv].
  erewrite bind_ok by exact Hv. py_step. unfold live_call. py_step.
  exists v. destruct s; reflexivity.
Qed.

Lemma console_print_spec (r : Renderable) (s : Dashboard) :
  console_print r s = (Ok tt, with_console (console s ++ [r]) s).
Proof. reflexivity. Qed.

Lemma build_summary_total (elapsed : Q) (reason : string) (s : Dashboard) :
  exists t, _build_summary elapsed reason s = (Ok t, s).
Proof.
  unfold _build_summary. repeat py_step. py_bind speed_ok. repeat py_step.
  eexists. reflexivity.
Qed.

(** [spider_closed] assigns the live display and prints; it raises
    [TypeError] when the spider was never opened. *)
Lemma spider_closed_spec (now : Q) (reason : string) (s : Dashboard) :
  exists r l' c',
    spider_closed now reason s = (r, with_console c' (with_live l' s)) /\
    (r = Ok tt <-> start_time s <> None).
Proof.
  unfold spider_closed. py_step.
  assert (L : exists l',
             (match live s with Some _ => live_call Live_stop | None => ret tt end) s
             = (Ok tt, with_live l' s)).
  { destruct (live s) as [lv|] eqn:E.
    - unfold live_call. py_step. rewrite E. eexists. reflexivity.
    - exists None. rewrite <- E, with_live_same. reflexivity. }
  destruct L as [l' L]. erewrite bind_ok by exact L. py_step.
  cbn [start_time with_live].
  destruct (start_time s) as [t|] eqn:T.
  - erewrite bind_ok by reflexivity. py_bind console_print_spec.
    match goal with |- context [bind (_build_summary ?e ?r) _ ?st] =>
      destruct (build_summary_total e r st) as [tb Htb] end.
    erewrite bind_ok by exact Htb. rewrite console_print_spec.
    eexists _, l', _. split.
    + destruct s; reflexivity.
    + split; [discriminate | reflexivity].
  - erewrite bind_raise by reflexivity.
    exists (Raise TypeError), l', (console s). split.
    + destruct s; reflexivity.
    + split; [discriminate | intros C; contradiction].
Qed.

(** ** Dictionaries and deques *)

Section DictFacts.
Context {V : Type}.
Implicit Types (d : PyDict.dict V) (k : string) (v : V).

Lemma get_set_same k v v0 d :
  PyDict.get k d = Some v0 -> PyDict.get k (PyDict.set k v d) = Some v.
Proof.
  induction d as [|[k' v'] d IH]; simpl; [discriminate|].
  destruct (k' =? k)%string eqn:E; simpl; rewrite E; auto.
Qed.

Lemma get_set_other k k' v d :
  k' <> k -> PyDict.get k' (PyDict.set k v d) = PyDict.get k' d.
Proof.
  intros N. induction d as [|[k0 v0] d IH]; simpl.
  - destruct (k =? k')%string eqn:E; [|reflexivity].
    apply String.eqb_eq in E. congruence.
  - destruct (k0 =? k)%string eqn:E; simpl.
    + destruct (k0 =? k')%string eqn:E'; [|reflexivity].
      apply String.eqb_eq in E, E'. congruence.
    + rewrite IH. reflexivity.
Qed.

Lemma keys_set k v v0 d :
  PyDict.get k d = Some v0 -> PyDict.keys (PyDict.set k v d) = PyDict.keys d.
Proof.
  unfold PyDict.keys. induction d as [|[k' v'] d IH]; simpl; [discriminate|].
  destruct (k' =? k)%string eqn:E; simpl; [reflexivity|].
  intros G. rewrite (IH G). reflexivity.
Qed.

Lemma get_In_keys k v d : PyDict.get k d = Some v -> In k (PyDict.keys d).
Proof.
  unfold PyDict.keys. induction d as [|[k' v'] d IH]; simpl; [discriminate|].
  destruct (k' =? k)%string eqn:E.
  - apply String.eqb_eq in E. auto.
  - auto.
Qed.

Lemma In_keys_get k d : In k (PyDict.keys d) -> exists v, PyDict.get k d = Some v.
Proof.
  unfold PyDict.keys. induction d as [|[k' v'] d IH]; simpl; [contradiction|].
  intros [E|I].
  - subst. rewrite String.eqb_refl. eauto.
  - destruct (k' =? k)%string; eauto.
Qed.

Lemma get_In_values k v d : PyDict.get k d = Some v -> In v (PyDict.values d).
Proof.
  unfold PyDict.values. induction d as [|[k' v'] d IH]; simpl; [discriminate|].
  destruct (k' =? k)%string; [intros [= ->]|]; auto.
Qed.

Lemma values_set_Forall (P : V -> Prop) k v d :
  Forall P (PyDict.values d) -> P v -> Forall P (PyDict.values (PyDict.set k v d)).
Proof.
  unfold PyDict.values. intros F Pv.
  induction d as [|[k' v'] d IH]; simpl.
  - constructor; auto.
  - inversion F; subst. destruct (k' =? k)%string; simpl; constructor; auto.
Qed.
End DictFacts.

Section DequeFacts.
Context {A : Type}.
Implicit Types (l : list A) (x : A) (n : nat).

Lemma append_length n x l :
  (List.length l <= n)%nat -> (List.length (PyDeque.append n x l) <= n)%nat.
Proof.
  intros H. unfold PyDeque.append. destruct n as [|n]; [exact H|].
  destruct (List.length l <? S n)%nat eqn:E.
  - apply Nat.ltb_lt in E. rewrite length_app. simpl. lia.
  - apply Nat.ltb_ge in E. rewrite length_app. destruct l; simpl in *; lia.
Qed.

Lemma append_Forall (P : A -> Prop) n x l :
  Forall P l -> P x -> Forall P (PyDeque.append n x l).
Proof.
  intros F Px. unfold PyDeque.append. destruct n as [|n]; [exact F|].
  destruct (List.length l <? S n)%nat; apply Forall_app; split; auto.
  destruct l; [constructor | inversion F; assumption].
Qed.

Lemma tl_skipn k l : tl (skipn k l) = skipn (S k) l.
Proof.
  revert l. induction k as [|k IH]; intros [|a l]; simpl; auto.
Qed.

(** Appending to the last [n] items keeps the last [n] items: the
    deque is a window on the stream of appended items. *)
Lemma append_lastn n x l :
  PyDeque.append (S n) x (lastn (S n) l) = lastn (S n) (l ++ [x]).
Proof.
  unfold PyDeque.append, lastn. rewrite length_skipn, length_app. simpl List.length.
  destruct (Nat.le_gt_cases (List.length l) n) as [H|H].
  - replace (List.length l - S n)%nat with 0%nat by lia.
    replace (List.length l + 1 - S n)%nat with 0%nat by lia.
    simpl skipn. replace (List.length l - 0 <? S n)%nat with true; [reflexivity|].
    symmetry. apply Nat.ltb_lt. lia.
  - replace (List.length l - (List.length l - S n) <? S n)%nat with false.
    2:{ symmetry. apply Nat.ltb_ge. lia. }
    rewrite tl_skipn.
    replace (List.length l + 1 - S n)%nat with (S (List.length l - S n)) by lia.
    rewrite skipn_app.
    replace (S (List.length l - S n) - List.length l)%nat with 0%nat by lia.
    reflexivity.
Qed.

Lemma fold_append_lastn n xs :
  fold_left (fun l x => PyDeque.append (S n) x l) xs [] = lastn (S n) xs.
Proof.
  induction xs as [|x xs IH] using rev_ind; [reflexivity|].
  rewrite fold_left_app. cbn [fold_left]. rewrite IH. apply append_lastn.
Qed.
End DequeFacts.

(** ** One call, case by case *)

(** [item_scraped] assigns no attribute but [item_counts]. *)
Lemma counted_frame (c : string) (s : Dashboard) :
  counted c s = with_item_counts (item_counts (counted c s)) s.
Proof.
  unfold counted. destruct (PyDict.get c (item_counts s)); [reflexivity|].
  destruct s; reflexivity.
Qed.

(** Rewrites the call of a handler in [after _ s] to the state that its
    specification gives. *)
Ltac handler_case :=
  unfold after; cbn [dispatch];
  lazymatch goal with
  | |- context [spider_opened ?a ?b ?s] =>
      destruct (spider_opened_spec a b s) as [? ->]
  | |- context [spider_closed ?a ?b ?s] =>
      destruct (spider_closed_spec a b s) as (? & ? & ? & -> & _)
  | |- context [item_scraped ?a ?c ?s] =>
      destruct (item_scraped_spec a c s) as (? & -> & _); rewrite (counted_frame c s)
  | |- context [spider_error ?a ?f ?r ?s] =>
      destruct (spider_error_spec a f r s) as (? & -> & _)
  | |- context [response_received ?a ?r ?q ?s] =>
      let E := fresh "E" in
      destruct (Z.eq_dec (status r) 429) as [E|E];
      [ destruct (response_received_429 a r q s E) as (? & -> & _)
      | rewrite (response_received_other a r q s E) ]
  | |- context [notify_scraped ?a ?u ?s] =>
      let G := fresh "G" in
      destruct (PyDict.get "App" (item_counts s)) as [?|] eqn:G;
      [ destruct (notify_scraped_spec a u _ s G) as (? & -> & _)
      | rewrite (notify_scraped_no_App a u s G) ]
  | |- context [notify_skipped ?a ?s] =>
      destruct (notify_skipped_spec a s) as (? & -> & _)
  | |- context [set_total_apps ?a ?n ?s] =>
      destruct (set_total_apps_spec a n s) as (? & -> & _)
  end;
  cbn [snd].

(** The same for each of the eight events. *)
Ltac event_cases e :=
  destruct e as [t0 t1|now reason|now c|now f r|now resp req|now url|now|now n];
  handler_case.

(** The attributes after a write to another attribute. *)
Ltac fields :=
  cbn [total_apps scraped_apps skipped_apps error_count rate_limit_count retry_count
       item_counts activity_log start_time live console
       with_total_apps with_scraped_apps with_skipped_apps with_error_count
       with_rate_limit_count with_item_counts with_activity_log with_start_time
       with_live with_console].

Lemma invariant_init : invariant init.
Proof.
  constructor; simpl; try lia.
  - reflexivity.
  - repeat constructor; lia.
  - constructor.
Qed.

Lemma counted_keys (c : string) (s : Dashboard) :
  PyDict.keys (item_counts (counted c s)) = PyDict.keys (item_counts s).
Proof.
  unfold counted. destruct (PyDict.get c (item_counts s)) eqn:G; [|reflexivity].
  fields. eapply keys_set, G.
Qed.

Lemma counted_values (c : string) (s : Dashboard) :
  Forall (fun v => 0 <= v) (PyDict.values (item_counts s)) ->
  Forall (fun v => 0 <= v) (PyDict.values (item_counts (counted c s))).
Proof.
  intros F. unfold counted. destruct (PyDict.get c (item_counts s)) as [v|] eqn:G; [|exact F].
  fields. apply values_set_Forall; [exact F|].
  apply get_In_values in G. rewrite Forall_forall in F. specialize (F _ G). lia.
Qed.

Lemma invariant_after (e : event) (s : Dashboard) : invariant s -> invariant (after e s).
Proof.
  intros [H1 H2 H3 H4 H5 H6 H7 H8].
  event_cases e; constructor; fields; try assumption; try lia;
    try (rewrite counted_keys; assumption);
    try (apply counted_values; assumption);
    try (apply append_length; assumption);
    try (apply append_Forall; [assumption | unfold logged_type, entry_type; simpl; tauto]).
Qed.

Lemma invariant_run (es : list event) (s : Dashboard) : invariant s -> invariant (run es s).
Proof.
  revert s. induction es as [|e es IH]; intros s H; [exact H|].
  apply IH, invariant_after, H.
Qed.

Lemma invariant_reachable (s : Dashboard) : reachable s -> invariant s.
Proof.
  induction 1 as [|s e _ IH]; [apply invariant_init | apply invariant_after, IH].
Qed.

Lemma reachable_run (es : list event) (s : Dashboard) : reachable s -> reachable (run es s).
Proof.
  revert s. induction es as [|e es IH]; intros s H; [exact H|].
  apply IH. constructor. exact H.
Qed.

Lemma run_app (es es' : list event) (s : Dashboard) : run (es ++ es') s = run es' (run es s).
Proof. apply fold_left_app. Qed.

(** ** A counter never goes down *)

Lemma counted_get (c k : string) (v : Z) (s : Dashboard) :
  PyDict.get k (item_counts s) = Some v ->
  PyDict.get k (item_counts (counted c s)) = Some (if (k =? c)%string then v + 1 else v).
Proof.
  intros G. unfold counted. destruct (k =? c)%string eqn:E.
  - apply String.eqb_eq in E. subst k. rewrite G. fields.
    eapply get_set_same, G.
  - apply String.eqb_neq in E.
    destruct (PyDict.get c (item_counts s)); [|exact G].
    fields. rewrite get_set_other by exact E. exact G.
Qed.

Lemma after_monotone (e : event) (s : Dashboard) :
  scraped_apps s <= scraped_apps (after e s) /\
  skipped_apps s <= skipped_apps (after e s) /\
  error_count s <= error_count (after e s) /\
  rate_limit_count s <= rate_limit_count (after e s) /\
  forall c v, PyDict.get c (item_counts s) = Some v ->
              exists v', PyDict.get c (item_counts (after e s)) = Some v' /\ v <= v'.
Proof.
  event_cases e; fields; repeat split; try lia; intros k val Gk; eauto using Z.le_refl.
  rewrite (counted_get _ _ _ _ Gk). eexists. split; [reflexivity|].
  destruct (k =? c)%string; lia.
Qed.

(** ** The counters *)

(** C1. From the initial state and through every sequence of calls, each
    counter ([scraped_apps], [skipped_apps], [error_count],
    [rate_limit_count] and every value of [item_counts]) is non-negative
    and does not decrease at any step. *)
Theorem counters_nonnegative_nondecreasing (es : list event) (e : event) :
  let s := run es init in
  let s' := after e s in
  0 <= scraped_apps s <= scraped_apps s' /\
  0 <= skipped_apps s <= skipped_apps s' /\
  0 <= error_count s <= error_count s' /\
  0 <= rate_limit_count s <= rate_limit_count s' /\
  forall c v, PyDict.get c (item_counts s) = Some v ->
              0 <= v /\
              exists v', PyDict.get c (item_counts s') = Some v' /\ v <= v'.
Proof.
  intros s s'.
  destruct (invariant_run es init invariant_init) as [H1 H2 H3 H4 _ H6 _ _].
  destruct (after_monotone e s) as (M1 & M2 & M3 & M4 & M5).
  fold s in H1, H2, H3, H4, H6. fold s' in M1, M2, M3, M4, M5.
  repeat split; try assumption.
  - apply get_In_values in H. rewrite Forall_forall in H6. apply H6, H.
  - apply M5, H.
Qed.

Lemma counters_nonnegative_nondecreasing_witness :
  0 <= 1 /\
  exists v',
    PyDict.get "App"
      (item_counts (after (ItemScraped 7 "App") (run [ItemScraped 3 "App"] init)))
    = Some v' /\ 1 <= v'.
Proof.
  pose proof (counters_nonnegative_nondecreasing [ItemScraped 3 "App"]
                (ItemScraped 7 "App")) as T.
  cbv zeta in T. destruct T as (_ & _ & _ & _ & T).
  apply (T "App" 1). reflexivity.
Defined.

(** ** The activity log *)

Lemma run_crawl_errors (errs : list (Q * option Failure * option Response))
    (s : Dashboard) :
  let s' := run (map crawl_error errs) s in
  activity_log s' =
    fold_left (fun l e => PyDeque.append activity_log_maxlen e l) (map logged_error errs)
              (activity_log s) /\
  error_count s' = error_count s + Z.of_nat (List.length errs).
Proof.
  revert s. induction errs as [|[[now f] r] errs IH]; intros s.
  - simpl. split; [reflexivity | lia].
  - cbn [map run fold_left List.length crawl_error logged_error].
    change (fold_left (fun s0 e => after e s0) (map crawl_error errs)
              (after (SpiderError now f r) s))
      with (run (map crawl_error errs) (after (SpiderError now f r) s)).
    destruct (IH (after (SpiderError now f r) s)) as [L E].
    unfold after in L, E |- *. cbn [dispatch] in L, E |- *.
    destruct (spider_error_spec now f r s) as (l' & R & _).
    rewrite R in L, E |- *. cbn [snd] in L, E |- *. fields.
    revert L E. fields. intros L E. split; [exact L | lia].
Qed.

(** C2. In every reachable state the activity log holds at most 8
    entries, and it evicts first in, first out: after 9 crawl errors the
    log is the entries of the last 8 in the order of the calls, the
    error count is 9, and with distinct subjects the entry of the first
    error is no longer in the log. *)
Theorem activity_log_bounded_fifo :
  (forall s, reachable s -> (List.length (activity_log s) <= 8)%nat) /\
  (forall first rest,
     List.length rest = 8%nat ->
     let s := run (map crawl_error (first :: rest)) init in
     activity_log s = map logged_error rest /\
     error_count s = 9 /\
     (NoDup (map subject (map logged_error (first :: rest))) ->
      ~ In (logged_error first) (activity_log s))).
Proof.
  split.
  - intros s R. apply (inv_log_length _ (invariant_reachable s R)).
  - intros first rest Len s.
    destruct (run_crawl_errors (first :: rest) init) as [L E]. fold s in L, E.
    assert (Log : activity_log s = map logged_error rest).
    { rewrite L. change (activity_log init) with (@nil entry).
      unfold activity_log_maxlen. rewrite fold_append_lastn.
      unfold lastn. rewrite length_map. cbn [List.length]. rewrite Len. reflexivity. }
    split; [exact Log|]. split.
    + rewrite E. cbn [List.length]. rewrite Len. reflexivity.
    + intros D I. rewrite Log in I. cbn [map] in D. inversion D as [|? ? N _]; subst.
      apply N. apply (in_map subject) in I. exact I.
Qed.

Lemma activity_log_bounded_fifo_witness :
  (List.length (activity_log (run (map crawl_error nine_errors) init)) <= 8)%nat /\
  map subject (activity_log (run (map crawl_error nine_errors) init)) =
    ["app2"; "app3"; "app4"; "app5"; "app6"; "app7"; "app8"; "app9"] /\
  error_count (run (map crawl_error nine_errors) init) = 9.
Proof.
  destruct activity_log_bounded_fifo as [B F]. split.
  - apply B, reachable_run, reachable_init.
  - destruct (F (hd (0%Q, None, None) nine_errors) (tl nine_errors) eq_refl) as (L & E & _).
    split; [|exact E].
    change (hd (0%Q, None, None) nine_errors :: tl nine_errors) with nine_errors in L.
    rewrite L. reflexivity.
Defined.

(** ** The handlers *)

(** C3. [response_received] on a status 429 adds 1 to [rate_limit_count]
    and appends the one entry [("rate_limit", name, "429 Rate Limited")],
    [name] being the last segment of the request's URL; on any other
    status it returns with [self] as it was, live display included. *)
Theorem response_received_rate_limit (now : Q) (response : Response) (request : Request)
    (s : Dashboard) :
  (status response = 429 ->
   exists l',
     response_received now response request s =
     (Ok tt,
      with_live l'
        (with_activity_log
           (PyDeque.append 8
              ("rate_limit", last (PyStr.split "/" (request_url request)) "",
               "429 Rate Limited")
              (activity_log s))
           (with_rate_limit_count (rate_limit_count s + 1) s)))) /\
  (status response <> 429 ->
   response_received now response request s = (Ok tt, s)).
Proof.
  split.
  - intros H. destruct (response_received_429 now response request s H) as (l' & R & _).
    exists l'. exact R.
  - apply response_received_other.
Qed.

Lemma response_received_rate_limit_witness :
  (let s := after (ResponseReceived 1 (mkResponse "https://apps.shopify.com/oberlo" 429)
                     (mkRequest "https://apps.shopify.com/oberlo")) init in
   rate_limit_count s = 1 /\
   activity_log s = [("rate_limit", "oberlo", "429 Rate Limited")]) /\
  after (ResponseReceived 1 (mkResponse "https://apps.shopify.com/oberlo" 200)
           (mkRequest "https://apps.shopify.com/oberlo")) init = init.
Proof.
  split.
  - destruct (proj1 (response_received_rate_limit 1
                       (mkResponse "https://apps.shopify.com/oberlo" 429)
                       (mkRequest "https://apps.shopify.com/oberlo") init) eq_refl)
      as [l' R].
    unfold after. cbn [dispatch]. rewrite R. split; reflexivity.
  - unfold after. cbn [dispatch].
    rewrite (proj2 (response_received_rate_limit 1
                      (mkResponse "https://apps.shopify.com/oberlo" 200)
                      (mkRequest "https://apps.shopify.com/oberlo") init));
      [reflexivity | discriminate].
Defined.

(** C4. [item_scraped] returns for every class name and every reachable
    state.  The keys of [item_counts] are the seven of [__init__], before
    and after.  For one of the seven the tally goes up by 1 and the other
    tallies stay; for any other name every attribute keeps its value, the
    live display apart, which [_refresh] redraws when there is one. *)
Theorem item_scraped_total (s : Dashboard) (now : Q) (class_name : string) :
  reachable s ->
  PyDict.keys (item_counts s) = item_types /\
  exists l' s',
    item_scraped now class_name s = (Ok tt, with_live l' s') /\
    (live s = None -> l' = None) /\
    PyDict.keys (item_counts s') = item_types /\
    (In class_name item_types ->
     exists v,
       PyDict.get class_name (item_counts s) = Some v /\
       s' = with_item_counts (PyDict.set class_name (v + 1) (item_counts s)) s /\
       PyDict.get class_name (item_counts s') = Some (v + 1) /\
       forall k, k <> class_name ->
                 PyDict.get k (item_counts s') = PyDict.get k (item_counts s)) /\
    (~ In class_name item_types -> s' = s).
Proof.
  intros R. pose proof (inv_keys _ (invariant_reachable s R)) as K.
  split; [exact K|].
  destruct (item_scraped_spec now class_name s) as (l' & E & N).
  exists l', (counted class_name s).
  split; [exact E|]. split; [exact N|]. split; [rewrite counted_keys; exact K|].
  unfold counted. split.
  - intros I. rewrite <- K in I. destruct (In_keys_get _ _ I) as [v G].
    exists v. rewrite G. fields. split; [reflexivity|]. split; [reflexivity|]. split.
    + eapply get_set_same, G.
    + intros k D. apply get_set_other, D.
  - intros I. destruct (PyDict.get class_name (item_counts s)) as [v|] eqn:G; [|reflexivity].
    exfalso. apply I. rewrite <- K. eapply get_In_keys, G.
Qed.

Lemma item_scraped_total_witness :
  item_scraped 4 "AppReview" init =
    (Ok tt,
     with_item_counts
       [("App", 0); ("KeyBenefit", 0); ("PricingPlan", 0); ("PricingPlanFeature", 0);
        ("Category", 0); ("AppCategory", 0); ("AppReview", 1)] init) /\
  item_scraped 4 "Unknown" init = (Ok tt, init).
Proof.
  split.
  - destruct (item_scraped_total init 4 "AppReview" reachable_init)
      as (_ & l' & s' & E & N & _ & I & _).
    rewrite E, (N eq_refl).
    destruct I as (v & G & -> & _); [simpl; tauto|].
    injection G as <-. reflexivity.
  - destruct (item_scraped_total init 4 "Unknown" reachable_init)
      as (_ & l' & s' & E & N & _ & _ & I).
    rewrite E, (N eq_refl), I; [reflexivity|].
    simpl. intros H. repeat (destruct H as [H|H]; [discriminate|]). exact H.
Defined.

(** ** The renderer *)

Lemma bar_text_not_waiting (scraped skipped total : Z) :
  bar_text scraped skipped total <> waiting_text.
Proof. unfold bar_text, waiting_text. cbn [String.append]. discriminate. Qed.

(** Scenario A: the progress row reads 5 of 100, 5.0%, one cell of the
    thirty filled. *)
Example scenario_A_progress :
  let s := run scenario_A init in
  scraped_apps s = 3 /\ skipped_apps s = 2 /\
  exists v,
    _build_layout 20 s = (Ok v, s) /\
    progress_row v =
      [Str ("  Apps    [green]█[/][dim]" +++ PyStr.repeat "░" 29
            +++ "[/]  [bold]5[/] / [bold]100[/]  [dim](5.0%)[/]")].
Proof.
  split; [reflexivity|]. split; [reflexivity|].
  eexists. split; [vm_compute; reflexivity | reflexivity].
Qed.

(** C5. [_build_layout] returns for every state and clock reading, so no
    division by zero is made.  With [total_apps] at 0 the progress row is
    the waiting text, which no progress bar equals; with an elapsed time
    of 0 the speed shown is 0. *)
Theorem build_layout_divisions_guarded (now : Q) (s : Dashboard) :
  exists v,
    _build_layout now s = (Ok v, s) /\
    (total_apps s = 0 -> progress_row v = [Str waiting_text]) /\
    (0 < total_apps s -> progress_row v <> [Str waiting_text]) /\
    ((elapsed_seconds s now == 0)%Q ->
     speed_cell v = Str "📊 Speed: [bold cyan]0[/] apps/min").
Proof.
  destruct (build_layout_view now s) as (v & E & P & S).
  exists v. split; [exact E|]. split; [|split].
  - intros T. rewrite P, T. reflexivity.
  - intros T. rewrite P. apply Z.gtb_lt in T. rewrite T.
    intros H.
    apply (bar_text_not_waiting (scraped_apps s) (skipped_apps s) (total_apps s)).
    congruence.
  - intros Z0. rewrite S. replace (Qpositive (elapsed_of s now)) with false; [reflexivity|].
    symmetry. apply Qpositive_zero. unfold elapsed_of, elapsed_seconds in *.
    destruct (start_time s) as [t|]; [|reflexivity].
    destruct (Qeq_bool t 0); [reflexivity | exact Z0].
Qed.

Lemma build_layout_divisions_guarded_witness :
  exists v,
    _build_layout 0 init = (Ok v, init) /\
    progress_row v = [Str "  Apps    [dim]Waiting for sitemap...[/]"] /\
    speed_cell v = Str "📊 Speed: [bold cyan]0[/] apps/min".
Proof.
  destruct (build_layout_divisions_guarded 0 init) as (v & E & P & _ & S).
  exists v. split; [exact E|]. split; [apply P; reflexivity | apply S; reflexivity].
Defined.

(** C9. [_build_layout] is a function of the clock reading and of the
    data attributes, and it assigns nothing: called twice on the same
    state and reading it returns the same layout twice and leaves the
    state as it was, and it returns that layout on every state with the
    same data attributes. *)
Theorem build_layout_deterministic (now : Q) (s : Dashboard) :
  exists v,
    render_twice now s = (Ok (v, v), s) /\
    forall l c,
      _build_layout now (with_console c (with_live l s))
      = (Ok v, with_console c (with_live l s)).
Proof.
  destruct (build_layout_total now s) as [v E]. exists v. split.
  - unfold render_twice. do 2 (erewrite bind_ok by exact E). reflexivity.
  - intros l c.
    destruct (build_layout_total now (with_console c (with_live l s))) as [v' E'].
    pose proof (build_layout_reads_data now s l c) as D.
    rewrite E, E' in D. cbn [fst] in D. injection D as ->. exact E'.
Qed.

(** ** The progress bound *)

(** C6, as the code has it.  No handler compares the counters with
    [total_apps]: [notify_scraped] and [notify_skipped] add 1 to
    [scraped_apps + skipped_apps] and leave [total_apps], and
    [set_total_apps] assigns [total_apps] and leaves the counters.  The
    bound [scraped_apps + skipped_apps <= total_apps] holds after a
    notification exactly when the sum was below [total_apps] before, and
    after [set_total_apps(count)] exactly when the sum is at most
    [count]. *)
Theorem total_apps_bound_left_to_caller (s : Dashboard) (now : Q) :
  (forall app_url,
     let s' := after (NotifyScraped now app_url) s in
     scraped_apps s' + skipped_apps s' <= total_apps s' <->
     scraped_apps s + skipped_apps s < total_apps s) /\
  (let s' := after (NotifySkipped now) s in
   scraped_apps s' + skipped_apps s' <= total_apps s' <->
   scraped_apps s + skipped_apps s < total_apps s) /\
  (forall count,
     let s' := after (SetTotalApps now count) s in
     total_apps s' = count /\
     (scraped_apps s' + skipped_apps s' <= total_apps s' <->
      scraped_apps s + skipped_apps s <= count)).
Proof.
  split; [|split].
  - intros app_url s'. subst s'. handler_case; fields; lia.
  - intros s'. subst s'. handler_case; fields; lia.
  - intros count s'. subst s'. handler_case; fields.
    split; [reflexivity | lia].
Qed.

Lemma total_apps_bound_left_to_caller_witness :
  let s := run [SetTotalApps 0 2; NotifySkipped 1] init in
  scraped_apps (after (NotifyScraped 2 "https://apps.shopify.com/oberlo") s)
  + skipped_apps (after (NotifyScraped 2 "https://apps.shopify.com/oberlo") s)
  <= total_apps (after (NotifyScraped 2 "https://apps.shopify.com/oberlo") s).
Proof.
  intros s.
  apply (proj1 (total_apps_bound_left_to_caller s 2)).
  vm_compute. reflexivity.
Defined.

(** C6 as stated fails: two pages scraped after a total of 1. *)
Lemma total_apps_bound_broken :
  let s := run [SetTotalApps 0 1; NotifyScraped 1 "https://apps.shopify.com/a";
                NotifyScraped 2 "https://apps.shopify.com/b"] init in
  reachable s /\ 0 < total_apps s /\ ~ scraped_apps s + skipped_apps s <= total_apps s.
Proof.
  intros s. split; [apply reachable_run, reachable_init|].
  split; [reflexivity|]. vm_compute. intros H. apply H. reflexivity.
Qed.

(** ** The entry of a scraped page *)

(** C7, as the code has it.  In every reachable state [notify_scraped]
    returns, adds 1 to [scraped_apps] and appends the one entry
    [("success", name, "<apps> apps total")]: [name] is the last segment
    of the URL without its trailing slashes and [apps] is the tally of
    [item_counts["App"]] in the state.  The call carries the URL alone. *)
Theorem notify_scraped_logs_app_tally (s : Dashboard) (now : Q) (app_url : string) :
  reachable s ->
  exists apps l',
    PyDict.get "App" (item_counts s) = Some apps /\
    notify_scraped now app_url s =
    (Ok tt,
     with_live l'
       (with_activity_log
          (PyDeque.append 8
             ("success", last (PyStr.split "/" (PyStr.rstrip "/" app_url)) "",
              PyNum.str apps +++ " apps total")
             (activity_log s))
          (with_scraped_apps (scraped_apps s + 1) s))).
Proof.
  intros R. pose proof (inv_keys _ (invariant_reachable s R)) as K.
  destruct (In_keys_get "App" (item_counts s)) as [apps G].
  { rewrite K. simpl. tauto. }
  destruct (notify_scraped_spec now app_url apps s G) as (l' & E & _).
  exists apps, l'. split; [exact G | exact E].
Qed.

Lemma notify_scraped_logs_app_tally_witness :
  exists apps l',
    PyDict.get "App" (item_counts init) = Some apps /\
    notify_scraped 3 "https://apps.shopify.com/oberlo/" init =
    (Ok tt,
     with_live l'
       (with_activity_log
          (PyDeque.append 8
             ("success",
              last (PyStr.split "/" (PyStr.rstrip "/" "https://apps.shopify.com/oberlo/")) "",
              PyNum.str apps +++ " apps total")
             (activity_log init))
          (with_scraped_apps (scraped_apps init + 1) init))).
Proof.
  exact (notify_scraped_logs_app_tally init 3 "https://apps.shopify.com/oberlo/"
           reachable_init).
Defined.

(** C7 as stated fails: the same call, on two reachable states with the
    same number of items so far, logs two different details. *)
Lemma success_detail_is_not_of_the_event :
  let s1 := run [ItemScraped 1 "App"] init in
  let s2 := run [ItemScraped 1 "KeyBenefit"] init in
  let call := NotifyScraped 2 "https://apps.shopify.com/oberlo" in
  PyDict.sum (PyDict.values (item_counts s1)) = 1 /\
  PyDict.sum (PyDict.values (item_counts s2)) = 1 /\
  activity_log (after call s1) = [("success", "oberlo", "1 apps total")] /\
  activity_log (after call s2) = [("success", "oberlo", "0 apps total")].
Proof. repeat split. Qed.

(** ** The start time *)

Lemma after_start_time (e : event) (s : Dashboard) :
  (forall t_start t_layout, e <> SpiderOpened t_start t_layout) ->
  start_time (after e s) = start_time s.
Proof.
  intros N. event_cases e; fields; try reflexivity.
  exfalso. exact (N _ _ eq_refl).
Qed.

Lemma spider_opened_start_time (t_start t_layout : Q) (s : Dashboard) :
  start_time (after (SpiderOpened t_start t_layout) s) = Some t_start.
Proof. handler_case. reflexivity. Qed.

(** C8, as the code has it.  [spider_opened] assigns [start_time] the
    clock reading of the call, whatever [start_time] was; no other
    handler assigns it. *)
Theorem spider_opened_assigns_start_time (s : Dashboard) (t_start t_layout : Q) :
  start_time (after (SpiderOpened t_start t_layout) s) = Some t_start /\
  forall e, (forall t t', e <> SpiderOpened t t') -> start_time (after e s) = start_time s.
Proof.
  split.
  - apply spider_opened_start_time.
  - intros e N. apply after_start_time, N.
Qed.

Lemma spider_opened_assigns_start_time_witness :
  start_time (after (NotifySkipped 8) (after (SpiderOpened 5 6) init)) = Some 5%Q.
Proof.
  destruct (spider_opened_assigns_start_time (after (SpiderOpened 5 6) init) 5 6) as [_ F].
  rewrite F by discriminate.
  apply (proj1 (spider_opened_assigns_start_time init 5 6)).
Defined.

(** C8 as stated fails: a second [spider_opened] assigns [start_time]
    again. *)
Lemma second_spider_opened_overwrites :
  let s1 := after (SpiderOpened 5 5) init in
  let s2 := after (SpiderOpened 9 9) s1 in
  start_time s1 = Some 5%Q /\ start_time s2 = Some 9%Q /\ start_time s2 <> start_time s1.
Proof.
  intros s1 s2.
  assert (E1 : start_time s1 = Some 5%Q) by apply spider_opened_start_time.
  assert (E2 : start_time s2 = Some 9%Q) by apply spider_opened_start_time.
  split; [exact E1|]. split; [exact E2|]. rewrite E1, E2. discriminate.
Qed.

(** ** No entry of type [skip] *)

(** C10. In every reachable state each entry of the activity log has the
    type [success], [error] or [rate_limit], so none has the type [skip]
    that the last branch of [_build_layout]'s loop formats;
    [notify_skipped] leaves the log as it is. *)
Theorem no_skip_entry_logged (es : list event) :
  Forall logged_type (activity_log (run es init)) /\
  ~ In "skip" (map entry_type (activity_log (run es init))) /\
  forall now s, activity_log (after (NotifySkipped now) s) = activity_log s.
Proof.
  pose proof (inv_log_types _ (invariant_run es init invariant_init)) as T.
  split; [exact T|]. split.
  - intros I. apply in_map_iff in I. destruct I as (e & K & I).
    rewrite Forall_forall in T. specialize (T e I).
    unfold logged_type, entry_type in *. rewrite K in T.
    destruct T as [T|[T|T]]; discriminate.
  - intros now s. handler_case. reflexivity.
Qed.

Lemma no_skip_entry_logged_witness :
  ~ In "skip"
      (map entry_type
         (activity_log (run [NotifySkipped 1; NotifyScraped 2 "a"; NotifySkipped 3] init))).
Proof.
  exact (proj1 (proj2 (no_skip_entry_logged
                         [NotifySkipped 1; NotifyScraped 2 "a"; NotifySkipped 3]))).
Defined.

(** * Further properties *)

(** ** The exact state after each handler *)

Lemma build_layout_at (now : Q) (s : Dashboard) :
  _build_layout now s = (Ok (layout_at now s), s).
Proof.
  unfold layout_at. destruct (build_layout_total now s) as [v E]. rewrite E. reflexivity.
Qed.

Lemma build_summary_at (elapsed : Q) (reason : string) (s : Dashboard) :
  _build_summary elapsed reason s = (Ok (summary_at elapsed reason s), s).
Proof.
  unfold summary_at. destruct (build_summary_total elapsed reason s) as [t E].
  rewrite E. reflexivity.
Qed.

Lemma refresh_exact (now : Q) (s : Dashboard) :
  _refresh now s = (Ok tt, refreshed now s).
Proof.
  unfold _refresh, refreshed. py_step. destruct (live s) as [lv|] eqn:L.
  - erewrite bind_ok by apply build_layout_at. unfold live_call. py_step.
    rewrite L. reflexivity.
  - cbn [option_map]. rewrite <- L, with_live_same. reflexivity.
Qed.

Lemma then_refresh_exact (m : Py unit) (now : Q) (s s1 : Dashboard) :
  m s = (Ok tt, s1) -> (m ;; _refresh now) s = (Ok tt, refreshed now s1).
Proof. intros H. erewrite bind_ok by exact H. apply refresh_exact. Qed.

Lemma notify_skipped_exact (now : Q) (s : Dashboard) :
  notify_skipped now s = (Ok tt, refreshed now (with_skipped_apps (skipped_apps s + 1) s)).
Proof.
  unfold notify_skipped. py_step. apply (then_refresh_exact (setattr _)). reflexivity.
Qed.

Lemma set_total_apps_exact (now : Q) (count : Z) (s : Dashboard) :
  set_total_apps now count s = (Ok tt, refreshed now (with_total_apps count s)).
Proof. unfold set_total_apps. apply (then_refresh_exact (setattr _)). reflexivity. Qed.

Lemma spider_error_exact (now : Q) (failure : option Failure) (response : option Response)
    (s : Dashboard) :
  spider_error now failure response s =
  (Ok tt,
   refreshed now
     (with_activity_log
        (PyDeque.append activity_log_maxlen (error_entry failure response) (activity_log s))
        (with_error_count (error_count s + 1) s))).
Proof.
  unfold spider_error. repeat py_step.
  apply (then_refresh_exact (log_append _)). reflexivity.
Qed.

Lemma response_received_exact (now : Q) (response : Response) (request : Request)
    (s : Dashboard) :
  status response = 429 ->
  response_received now response request s =
  (Ok tt,
   refreshed now
     (with_activity_log
        (PyDeque.append activity_log_maxlen (rate_limit_entry request) (activity_log s))
        (with_rate_limit_count (rate_limit_count s + 1) s))).
Proof.
  intros H. unfold response_received. rewrite H, Z.eqb_refl. repeat py_step.
  apply (then_refresh_exact (log_append _)). reflexivity.
Qed.

Lemma notify_scraped_exact (now : Q) (app_url : string) (apps : Z) (s : Dashboard) :
  PyDict.get "App" (item_counts s) = Some apps ->
  notify_scraped now app_url s =
  (Ok tt,
   refreshed now
     (with_activity_log
        (PyDeque.append activity_log_maxlen (success_entry app_url apps) (activity_log s))
        (with_scraped_apps (scraped_apps s + 1) s))).
Proof.
  intros H. unfold notify_scraped. repeat py_step.
  unfold getitem. cbn [item_counts with_scraped_apps]. rewrite H.
  erewrite bind_ok by reflexivity.
  apply (then_refresh_exact (log_append _)). reflexivity.
Qed.

Lemma item_scraped_exact (now : Q) (class_name : string) (s : Dashboard) :
  item_scraped now class_name s = (Ok tt, refreshed now (counted class_name s)).
Proof.
  unfold item_scraped. py_step. unfold counted, PyDict.contains, getitem.
  destruct (PyDict.get class_name (item_counts s)) as [v|] eqn:G.
  - apply (then_refresh_exact (_ ;; _)). reflexivity.
  - apply (then_refresh_exact (ret tt)). reflexivity.
Qed.

Lemma spider_opened_exact (t_start t_layout : Q) (s : Dashboard) :
  spider_opened t_start t_layout s =
  (Ok tt,
   with_live (Some (mkLive (layout_at t_layout (with_start_time (Some t_start) s)) 2 true))
     (with_start_time (Some t_start) s)).
Proof.
  unfold spider_opened. py_step.
  erewrite bind_ok by apply build_layout_at. py_step. unfold live_call. py_step.
  destruct s; reflexivity.
Qed.

(** ** The counters count the calls *)

Lemma after_counters (e : event) (s : Dashboard) :
  scraped_apps (after e s) = scraped_apps s + (if is_notify_scraped e then 1 else 0) /\
  skipped_apps (after e s) = skipped_apps s + (if is_notify_skipped e then 1 else 0) /\
  error_count (after e s) = error_count s + (if is_spider_error e then 1 else 0) /\
  rate_limit_count (after e s) = rate_limit_count s + (if is_rate_limited e then 1 else 0) /\
  total_apps (after e s) = match e with SetTotalApps _ n => n | _ => total_apps s end /\
  retry_count (after e s) = retry_count s.
Proof.
  event_cases e; fields; cbn [is_notify_scraped is_notify_skipped is_spider_error
                              is_rate_limited];
    try (apply Z.eqb_eq in E; rewrite E); try (apply Z.eqb_neq in E; rewrite E);
    repeat split; lia.
Qed.

Lemma count_cons (p : event -> bool) (e : event) (es : list event) :
  count p (e :: es) = (if p e then 1 else 0) + count p es.
Proof. unfold count. cbn [filter]. destruct (p e); cbn [List.length]; lia. Qed.

Lemma run_counters (es : list event) (s : Dashboard) :
  scraped_apps (run es s) = scraped_apps s + count is_notify_scraped es /\
  skipped_apps (run es s) = skipped_apps s + count is_notify_skipped es /\
  error_count (run es s) = error_count s + count is_spider_error es /\
  rate_limit_count (run es s) = rate_limit_count s + count is_rate_limited es /\
  total_apps (run es s) =
    fold_left (fun t e => match e with SetTotalApps _ n => n | _ => t end) es (total_apps s) /\
  retry_count (run es s) = retry_count s.
Proof.
  revert s. induction es as [|e es IH]; intros s.
  - unfold count. simpl. repeat split; lia.
  - change (run (e :: es) s) with (run es (after e s)).
    destruct (IH (after e s)) as (I1 & I2 & I3 & I4 & I5 & I6).
    destruct (after_counters e s) as (A1 & A2 & A3 & A4 & A5 & A6).
    rewrite !count_cons. cbn [fold_left]. rewrite I1, I2, I3, I4, I5, I6, A1, A2, A3, A4, A6.
    repeat split; try lia.
    f_equal. rewrite A5. destruct e; reflexivity.
Qed.

(** X1. After any sequence of calls from [__init__], [scraped_apps],
    [skipped_apps] and [error_count] are the numbers of [notify_scraped],
    [notify_skipped] and [spider_error] calls, [rate_limit_count] is the
    number of [response_received] calls with status 429, [total_apps] is
    the argument of the last [set_total_apps] (0 when there was none),
    and [retry_count], which no method assigns, is 0. *)
Theorem counters_count_the_calls (es : list event) :
  let s := run es init in
  scraped_apps s = count is_notify_scraped es /\
  skipped_apps s = count is_notify_skipped es /\
  error_count s = count is_spider_error es /\
  rate_limit_count s = count is_rate_limited es /\
  total_apps s = last_total es /\
  retry_count s = 0.
Proof.
  intros s. destruct (run_counters es init) as (H1 & H2 & H3 & H4 & H5 & H6).
  cbn [scraped_apps skipped_apps error_count rate_limit_count total_apps retry_count init]
    in H1, H2, H3, H4, H5, H6.
  repeat split; assumption.
Qed.

(** ** The tallies count the items *)

Lemma after_item_count (e : event) (k : string) (v : Z) (s : Dashboard) :
  PyDict.get k (item_counts s) = Some v ->
  PyDict.get k (item_counts (after e s)) = Some (v + (if is_item k e then 1 else 0)).
Proof.
  intros G. event_cases e; fields; cbn [is_item]; rewrite ?Z.add_0_r; try exact G.
  rewrite (counted_get _ _ _ _ G). destruct (k =? c)%string; rewrite ?Z.add_0_r; reflexivity.
Qed.

Lemma run_item_count (es : list event) (k : string) (v : Z) (s : Dashboard) :
  PyDict.get k (item_counts s) = Some v ->
  PyDict.get k (item_counts (run es s)) = Some (v + count (is_item k) es).
Proof.
  revert v s. induction es as [|e es IH]; intros v s G.
  - unfold count. simpl. rewrite Z.add_0_r. exact G.
  - change (run (e :: es) s) with (run es (after e s)).
    rewrite (IH _ _ (after_item_count e k v s G)), count_cons. f_equal. lia.
Qed.

(** X2. After any sequence of calls from [__init__], the tally of each of
    the seven item types is the number of [item_scraped] calls with an
    item of that class, and a class name that is not one of the seven has
    no tally, however many items of it were scraped. *)
Theorem item_counts_count_the_items (es : list event) (class_name : string) :
  (In class_name item_types ->
   PyDict.get class_name (item_counts (run es init)) = Some (count (is_item class_name) es)) /\
  (~ In class_name item_types ->
   PyDict.get class_name (item_counts (run es init)) = None).
Proof.
  split.
  - intros I. destruct (In_keys_get class_name (item_counts init) I) as [v G].
    rewrite (run_item_count es class_name v init G). f_equal.
    simpl in I.
    repeat (destruct I as [I|I]; [subst class_name; injection G as <-; reflexivity|]).
    contradiction.
  - intros N. destruct (PyDict.get class_name (item_counts (run es init))) as [v|] eqn:G;
      [|reflexivity].
    exfalso. apply N. apply get_In_keys in G.
    rewrite (inv_keys _ (invariant_run es init invariant_init)) in G. exact G.
Qed.

Lemma item_counts_count_the_items_witness :
  PyDict.get "AppReview"
    (item_counts (run [ItemScraped 1 "AppReview"; ItemScraped 2 "App"; ItemScraped 3 "Other";
                       ItemScraped 4 "AppReview"] init)) = Some 2 /\
  PyDict.get "Other"
    (item_counts (run [ItemScraped 1 "AppReview"; ItemScraped 2 "App"; ItemScraped 3 "Other";
                       ItemScraped 4 "AppReview"] init)) = None.
Proof.
  split.
  - rewrite (proj1 (item_counts_count_the_items _ "AppReview")); [reflexivity|].
    simpl. tauto.
  - apply (proj2 (item_counts_count_the_items _ "Other")).
    simpl. intros H. repeat (destruct H as [H|H]; [discriminate|]). exact H.
Defined.

(** ** The log is a window on what was logged *)

Lemma after_activity_log (e : event) (s : Dashboard) :
  activity_log (after e s) =
  fold_left (fun l x => PyDeque.append activity_log_maxlen x l) (logged e s) (activity_log s).
Proof.
  event_cases e; fields; cbn [logged fold_left]; try reflexivity.
  - apply Z.eqb_eq in E. rewrite E. reflexivity.
  - apply Z.eqb_neq in E. rewrite E. reflexivity.
  - rewrite G. reflexivity.
  - rewrite G. reflexivity.
Qed.

Lemma fold_append_lastn_from {A} (n : nat) (xs h : list A) :
  fold_left (fun l x => PyDeque.append (S n) x l) xs (lastn (S n) h) = lastn (S n) (h ++ xs).
Proof.
  revert h. induction xs as [|x xs IH]; intros h.
  - rewrite app_nil_r. reflexivity.
  - cbn [fold_left]. rewrite append_lastn, IH, <- app_assoc. reflexivity.
Qed.

Lemma run_activity_log (es : list event) (s : Dashboard) (h : list entry) :
  activity_log s = lastn 8 h ->
  activity_log (run es s) = lastn 8 (h ++ history es s).
Proof.
  revert s h. induction es as [|e es IH]; intros s h H.
  - cbn [run fold_left history]. rewrite app_nil_r. exact H.
  - change (run (e :: es) s) with (run es (after e s)). cbn [history].
    rewrite app_assoc. apply IH.
    rewrite after_activity_log, H. apply fold_append_lastn_from.
Qed.

Lemma lastn_length {A} (n : nat) (l : list A) :
  List.length (lastn n l) = Nat.min n (List.length l).
Proof. unfold lastn. rewrite length_skipn. lia. Qed.

(** X3. After any sequence of calls from [__init__] the activity log is
    the last 8 of all the entries that the calls logged, in the order of
    the calls: one entry for each [spider_error], for each
    [response_received] with status 429 and for each [notify_scraped],
    none for any other call. *)
Theorem activity_log_is_last_8_logged (es : list event) :
  activity_log (run es init) = lastn 8 (history es init) /\
  List.length (activity_log (run es init)) = Nat.min 8 (List.length (history es init)).
Proof.
  assert (H : activity_log (run es init) = lastn 8 (history es init))
    by apply (run_activity_log es init [] eq_refl).
  split; [exact H|]. rewrite H. apply lastn_length.
Qed.

(** ** The live display *)

Lemma build_summary_reads_data (elapsed : Q) (reason : string) (s : Dashboard)
    (l : option Live) (c : list Renderable) :
  summary_at elapsed reason (with_console c (with_live l s)) = summary_at elapsed reason s.
Proof.
  unfold summary_at. destruct s as [tot scr skp err rl rt cnt lg st lv con].
  unfold with_console, with_live; fields.
  unfold _build_summary. repeat py_step. fields.
  py_bind speed_ok. repeat py_step. py_bind speed_ok. repeat py_step.
  reflexivity.
Qed.

Lemma with_console_live_same (l : option Live) (s : Dashboard) :
  with_console (console s) (with_live l s) = with_live l s.
Proof. destruct s; reflexivity. Qed.

(** [spider_closed], in full. *)
Lemma spider_closed_exact (now : Q) (reason : string) (s : Dashboard) :
  spider_closed now reason s =
  match start_time s with
  | Some t =>
      (Ok tt,
       with_console
         (console s
          ++ [Str "";
              Panel (TableR (summary_at (now - t) reason s))
                    (Some "[bold cyan]🛍️  Scraping Complete[/]") "cyan" (0, 1)])
         (with_live (option_map Live_stop (live s)) s))
  | None => (Raise TypeError, with_live (option_map Live_stop (live s)) s)
  end.
Proof.
  unfold spider_closed. py_step.
  assert (L : (match live s with Some _ => live_call Live_stop | None => ret tt end) s
              = (Ok tt, with_live (option_map Live_stop (live s)) s)).
  { destruct (live s) as [lv|] eqn:E.
    - unfold live_call. py_step. rewrite E. reflexivity.
    - cbn [option_map]. rewrite <- E, with_live_same. reflexivity. }
  erewrite bind_ok by exact L. py_step. fields.
  destruct (start_time s) as [t|] eqn:T.
  - erewrite bind_ok by reflexivity. py_bind console_print_spec.
    erewrite bind_ok by apply build_summary_at. rewrite console_print_spec.
    rewrite build_summary_reads_data. fields. rewrite <- app_assoc. reflexivity.
  - erewrite bind_raise by reflexivity. reflexivity.
Qed.

(** Rewrites the call of a handler in [after _ s] to the exact state after
    it. *)
Ltac handler_exact :=
  unfold after; cbn [dispatch];
  lazymatch goal with
  | |- context [spider_opened ?a ?b ?s] => rewrite (spider_opened_exact a b s)
  | |- context [spider_closed ?a ?b ?s] =>
      rewrite (spider_closed_exact a b s);
      let T := fresh "T" in destruct (start_time s) as [?|] eqn:T
  | |- context [item_scraped ?a ?c ?s] =>
      rewrite (item_scraped_exact a c s), (counted_frame c s)
  | |- context [spider_error ?a ?f ?r ?s] => rewrite (spider_error_exact a f r s)
  | |- context [response_received ?a ?r ?q ?s] =>
      let E := fresh "E" in
      destruct (Z.eq_dec (status r) 429) as [E|E];
      [ rewrite (response_received_exact a r q s E)
      | rewrite (response_received_other a r q s E) ]
  | |- context [notify_scraped ?a ?u ?s] =>
      let G := fresh "G" in
      destruct (PyDict.get "App" (item_counts s)) as [?|] eqn:G;
      [ rewrite (notify_scraped_exact a u _ s G)
      | rewrite (notify_scraped_no_App a u s G) ]
  | |- context [notify_skipped ?a ?s] => rewrite (notify_skipped_exact a s)
  | |- context [set_total_apps ?a ?n ?s] => rewrite (set_total_apps_exact a n s)
  end;
  cbn [snd fst].


Lemma refreshed_live (now : Q) (s : Dashboard) :
  live (refreshed now s) = option_map (Live_update (layout_at now s)) (live s).
Proof. reflexivity. Qed.








Lemma layout_at_with_live (now : Q) (l : option Live) (s : Dashboard) :
  layout_at now (with_live l s) = layout_at now s.
Proof.
  unfold layout_at. rewrite <- (with_console_live_same l s).
  rewrite build_layout_reads_data. reflexivity.
Qed.

Lemma refreshed_shows (now : Q) (s : Dashboard) (lv : Live) :
  live (refreshed now s) = Some lv -> renderable lv = layout_at now (refreshed now s).
Proof.
  unfold refreshed at 2. rewrite layout_at_with_live. rewrite refreshed_live.
  destruct (live s); cbn [option_map]; intros [= <-]. reflexivity.
Qed.

(** X6. In every reachable state, after a handler that redraws
    ([spider_opened], [item_scraped], [spider_error], [response_received]
    on a status 429, [notify_scraped], [notify_skipped],
    [set_total_apps]) the live display, when there is one, shows the
    layout of the state that the handler leaves, at the clock reading of
    the call. *)
Theorem display_shows_the_state (s : Dashboard) (e : event) (now : Q) (lv : Live) :
  reachable s ->
  refresh_clock e = Some now ->
  live (after e s) = Some lv ->
  renderable lv = layout_at now (after e s).
Proof.
  intros R C. revert lv.
  destruct e as [t0 t1|now' reason|now' c|now' f r|now' resp req|now' url|now'|now' n];
    cbn [refresh_clock] in C; try discriminate C; try (injection C as ->);
    unfold after; cbn [dispatch].
  - rewrite spider_opened_exact. cbn [snd]. intros lv. fields. intros [= <-].
    cbn [renderable]. rewrite layout_at_with_live. reflexivity.
  - rewrite item_scraped_exact. cbn [snd]. apply refreshed_shows.
  - rewrite spider_error_exact. cbn [snd]. apply refreshed_shows.
  - destruct (status resp =? 429) eqn:E; [|discriminate C]. injection C as ->.
    apply Z.eqb_eq in E. rewrite (response_received_exact _ _ _ _ E). cbn [snd].
    apply refreshed_shows.
  - destruct (In_keys_get "App" (item_counts s)) as [apps G].
    { rewrite (inv_keys _ (invariant_reachable s R)). simpl. tauto. }
    rewrite (notify_scraped_exact _ _ _ _ G). cbn [snd]. apply refreshed_shows.
  - rewrite notify_skipped_exact. cbn [snd]. apply refreshed_shows.
  - rewrite set_total_apps_exact. cbn [snd]. apply refreshed_shows.
Qed.

Lemma display_shows_the_state_witness :
  let s := after (NotifySkipped 8) (after (SpiderOpened 5 6) init) in
  exists lv, live s = Some lv /\ renderable lv = layout_at 8 s.
Proof.
  intros s.
  assert (L : exists lv, live s = Some lv).
  { subst s. unfold after. cbn [dispatch]. rewrite spider_opened_exact. cbn [snd].
    rewrite notify_skipped_exact. cbn [snd]. rewrite refreshed_live. fields.
    cbn [option_map]. eexists. reflexivity. }
  destruct L as [lv L]. exists lv. split; [exact L|].
  apply (display_shows_the_state (after (SpiderOpened 5 6) init) (NotifySkipped 8) 8 lv).
  - constructor. constructor.
  - reflexivity.
  - exact L.
Defined.

(** ** The final summary *)








(** ** What the layout shows *)

Lemma fold_items_row (counts : PyDict.dict Z) (t : Table Renderable) :
  rows (fold_left items_row counts t) =
  rows t ++ map (fun kv => [Str (glyph (fst kv) +++ " " +++ fst kv);
                            Str (PyNum.fmt_thousands (snd kv))]) counts.
Proof.
  revert t. induction counts as [|[k v] counts IH]; intros t.
  - cbn [fold_left map]. rewrite app_nil_r. reflexivity.
  - cbn [fold_left map]. rewrite IH. unfold items_row. cbn [add_row rows fst snd].
    rewrite <- app_assoc. reflexivity.
Qed.

Lemma fold_activity_line (log : list entry) (lines : list string) :
  fold_left activity_line log lines = lines ++ flat_map (activity_line []) log.
Proof.
  revert lines. induction log as [|[[k n] d] log IH]; intros lines.
  - cbn [fold_left flat_map]. rewrite app_nil_r. reflexivity.
  - cbn [fold_left flat_map]. rewrite IH, app_assoc. f_equal.
    unfold activity_line.
    destruct (k =? "success")%string; [reflexivity|].
    destruct (k =? "error")%string; [reflexivity|].
    destruct (k =? "rate_limit")%string; [reflexivity|].
    destruct (k =? "skip")%string; [reflexivity|].
    rewrite app_nil_r. reflexivity.
Qed.

(** The cells of the layout, attribute by attribute. *)
Lemma layout_cells (now : Q) (s : Dashboard) :
  let v := layout_at now s in
  stats_cell 0 2 v = Str ("⏭ Skipped: [bold yellow]" +++ PyNum.fmt_thousands (skipped_apps s)
                          +++ "[/]") /\
  stats_cell 0 3 v = Str ("🔄 Retries: [bold]" +++ PyNum.str (retry_count s) +++ "[/]") /\
  stats_cell 1 0 v = Str ("  ✅ Scraped: [bold green]"
                          +++ PyNum.fmt_thousands (scraped_apps s) +++ "[/]") /\
  stats_cell 1 1 v = Str ("📦 Items: [bold cyan]"
                          +++ PyNum.fmt_thousands (PyDict.sum (PyDict.values (item_counts s)))
                          +++ "[/]") /\
  stats_cell 1 2 v = Str ("⚠️  Errors: [bold red]" +++ PyNum.str (error_count s) +++ "[/]") /\
  stats_cell 1 3 v = Str ("🚫 429s: [bold red]" +++ PyNum.str (rate_limit_count s) +++ "[/]") /\
  items_rows v =
    map (fun kv => [Str (glyph (fst kv) +++ " " +++ fst kv);
                    Str (PyNum.fmt_thousands (snd kv))]) (item_counts s) /\
  activity_text v =
    PyStr.join newline
      match flat_map (activity_line []) (activity_log s) with
      | [] => ["  [dim]Waiting for first response...[/]"]
      | _ :: _ => flat_map (activity_line []) (activity_log s)
      end /\
  progress_row v =
    [Str (if total_apps s >? 0
          then bar_text (scraped_apps s) (skipped_apps s) (total_apps s)
          else waiting_text)].
Proof.
  unfold layout_at, _build_layout. repeat py_step.
  py_bind speed_ok. py_bind progress_ok. repeat py_step. unfold ret. cbn [fst].
  repeat split; try reflexivity.
  - unfold items_rows, side_cells, layout_rows. cbn [add_row add_column new_grid new_table rows nth app].
    rewrite fold_items_row. reflexivity.
  - unfold activity_text, side_cells, layout_rows. cbn [add_row add_column new_grid new_table rows nth app].
    rewrite fold_activity_line. cbn [app].
    destruct (flat_map (activity_line []) (activity_log s)); reflexivity.
Qed.

Lemma dict_of_keys {V} (f : string -> V) (d : PyDict.dict V) :
  NoDup (PyDict.keys d) ->
  (forall k v, PyDict.get k d = Some v -> v = f k) ->
  d = map (fun k => (k, f k)) (PyDict.keys d).
Proof.
  unfold PyDict.keys. induction d as [|[k0 v0] d IH]; intros N H; [reflexivity|].
  cbn [map fst]. inversion N as [|? ? N0 N']; subst. f_equal.
  - f_equal. apply H. simpl. rewrite String.eqb_refl. reflexivity.
  - apply IH; [exact N'|]. intros k v G. apply H. simpl.
    destruct (k0 =? k)%string eqn:E; [|exact G].
    apply String.eqb_eq in E. subst k0. exfalso. apply N0. eapply get_In_keys, G.
Qed.

Lemma item_types_NoDup : NoDup item_types.
Proof.
  unfold item_types.
  repeat (constructor; [simpl; intros H; repeat (destruct H as [H|H]; [discriminate|]);
                        exact H|]).
  constructor.
Qed.

Lemma run_item_counts (es : list event) :
  item_counts (run es init) = map (fun k => (k, count (is_item k) es)) item_types.
Proof.
  pose proof (inv_keys _ (invariant_run es init invariant_init)) as K.
  rewrite <- K. apply dict_of_keys.
  - rewrite K. exact item_types_NoDup.
  - intros k v G. assert (I : In k item_types) by (rewrite <- K; eapply get_In_keys, G).
    destruct (In_keys_get k (item_counts init) I) as [v0 G0].
    rewrite (run_item_count es k v0 init G0) in G. injection G as <-.
    simpl in I.
    repeat (destruct I as [I|I]; [subst k; injection G0 as <-; reflexivity|]).
    contradiction.
Qed.

(** X9. After any sequence of calls from [__init__] the item table of the
    layout has one row for each of the seven item types, in the order of
    [__init__], with the glyph and the name of the type and the number of
    [item_scraped] calls with an item of that type; a type with no item
    has its row, with 0. *)
Theorem item_table_shows_every_type (es : list event) (now : Q) :
  items_rows (layout_at now (run es init)) =
  map (fun k => [Str (glyph k +++ " " +++ k);
                 Str (PyNum.fmt_thousands (count (is_item k) es))])
      item_types.
Proof.
  destruct (layout_cells now (run es init)) as (_ & _ & _ & _ & _ & _ & I & _).
  rewrite I, run_item_counts, map_map. reflexivity.
Qed.

Lemma logged_type_line (e : entry) :
  logged_type e -> List.length (activity_line [] e) = 1%nat.
Proof.
  destruct e as [[k n] d]. unfold logged_type, entry_type. cbn [fst].
  intros [-> | [-> | ->]]; reflexivity.
Qed.

Lemma flat_map_singletons {A B} (f : A -> list B) (l : list A) :
  Forall (fun a => List.length (f a) = 1%nat) l ->
  List.length (flat_map f l) = List.length l.
Proof.
  induction 1 as [|a l H _ IH]; [reflexivity|].
  cbn [flat_map]. rewrite length_app, H, IH. reflexivity.
Qed.

(** X10. After any sequence of calls from [__init__] the activity panel
    of the layout has the waiting line when the log is empty, and
    otherwise one line for each entry of the log, in the order of the
    log, joined by newlines; an entry whose type is none of [success],
    [error], [rate_limit] and [skip] would have no line. *)
Theorem activity_panel_shows_every_entry (es : list event) (now : Q) :
  let s := run es init in
  let lines := flat_map (activity_line []) (activity_log s) in
  Forall (fun e => List.length (activity_line [] e) = 1%nat) (activity_log s) /\
  List.length lines = List.length (activity_log s) /\
  activity_text (layout_at now s) =
    match activity_log s with
    | [] => "  [dim]Waiting for first response...[/]"
    | _ :: _ => PyStr.join newline lines
    end /\
  forall t name d,
    t <> "success" -> t <> "error" -> t <> "rate_limit" -> t <> "skip" ->
    activity_line [] (t, name, d) = [].
Proof.
  intros s lines.
  assert (F : Forall (fun e => List.length (activity_line [] e) = 1%nat) (activity_log s)).
  { eapply Forall_impl; [apply logged_type_line|].
    apply (inv_log_types _ (invariant_run es init invariant_init)). }
  assert (L : List.length lines = List.length (activity_log s))
    by apply (flat_map_singletons _ _ F).
  split; [exact F|]. split; [exact L|]. split.
  - destruct (layout_cells now s) as (_ & _ & _ & _ & _ & _ & _ & T & _).
    rewrite T. fold lines. destruct (activity_log s) as [|e log] eqn:E.
    + reflexivity.
    + destruct lines; [discriminate L | reflexivity].
  - intros t name d N1 N2 N3 N4. unfold activity_line.
    apply String.eqb_neq in N1, N2, N3, N4. rewrite N1, N2, N3, N4. reflexivity.
Qed.

Lemma activity_panel_shows_every_entry_witness :
  activity_text
    (layout_at 9 (run [NotifyScraped 1 "https://apps.shopify.com/oberlo";
                       ResponseReceived 2 (mkResponse "https://apps.shopify.com/x" 429)
                                        (mkRequest "https://apps.shopify.com/x")] init))
  = "  [green]✓[/] " +++ PyStr.ljust 35 "oberlo" +++ " [dim]0 apps total[/]" +++ newline
    +++ "  [yellow]⚠[/] " +++ PyStr.ljust 35 "x" +++ " [yellow]429 Rate Limited[/]" /\
  activity_line [] ("retry", "oberlo", "again") = [].
Proof.
  pose proof (activity_panel_shows_every_entry
                [NotifyScraped 1 "https://apps.shopify.com/oberlo";
                 ResponseReceived 2 (mkResponse "https://apps.shopify.com/x" 429)
                                  (mkRequest "https://apps.shopify.com/x")] 9) as T.
  cbv zeta in T. destruct T as (_ & _ & T & U). split.
  - rewrite T. reflexivity.
  - apply U; discriminate.
Defined.

Lemma known_item_once (e : event) :
  (if is_item "App" e then 1 else 0) + (if is_item "KeyBenefit" e then 1 else 0)
  + (if is_item "PricingPlan" e then 1 else 0)
  + (if is_item "PricingPlanFeature" e then 1 else 0)
  + (if is_item "Category" e then 1 else 0) + (if is_item "AppCategory" e then 1 else 0)
  + (if is_item "AppReview" e then 1 else 0)
  = if is_known_item e then 1 else 0.
Proof.
  destruct e; try reflexivity. cbn [is_item is_known_item item_types existsb].
  repeat match goal with
         | |- context [(?k =? class_name)%string] =>
             let E := fresh "E" in
             destruct (k =? class_name)%string eqn:E;
             [apply String.eqb_eq in E; subst class_name; reflexivity|]
         end.
  reflexivity.
Qed.

Lemma sum_item_counts (es : list event) :
  PyDict.sum (PyDict.values (item_counts (run es init))) = count is_known_item es.
Proof.
  rewrite run_item_counts.
  cbn [item_types map PyDict.values PyDict.sum fold_left snd].
  induction es as [|e es IH]; [reflexivity|].
  rewrite !count_cons. rewrite <- IH, <- (known_item_once e). lia.
Qed.

(** X11. After any sequence of calls from [__init__] the stats grid of
    the layout shows the numbers of calls: scraped, skipped, errors and
    429s are the numbers of [notify_scraped], [notify_skipped],
    [spider_error] and status-429 [response_received] calls, the items
    are the number of [item_scraped] calls with an item of one of the
    seven types, and the retries are 0 whatever the calls. *)
Theorem stats_show_the_calls (es : list event) (now : Q) :
  let v := layout_at now (run es init) in
  stats_cell 1 0 v = Str ("  ✅ Scraped: [bold green]"
                          +++ PyNum.fmt_thousands (count is_notify_scraped es) +++ "[/]") /\
  stats_cell 0 2 v = Str ("⏭ Skipped: [bold yellow]"
                          +++ PyNum.fmt_thousands (count is_notify_skipped es) +++ "[/]") /\
  stats_cell 1 2 v = Str ("⚠️  Errors: [bold red]" +++ PyNum.str (count is_spider_error es)
                          +++ "[/]") /\
  stats_cell 1 3 v = Str ("🚫 429s: [bold red]" +++ PyNum.str (count is_rate_limited es)
                          +++ "[/]") /\
  stats_cell 1 1 v = Str ("📦 Items: [bold cyan]"
                          +++ PyNum.fmt_thousands (count is_known_item es) +++ "[/]") /\
  stats_cell 0 3 v = Str "🔄 Retries: [bold]0[/]".
Proof.
  intros v. subst v.
  destruct (layout_cells now (run es init)) as (C1 & C2 & C3 & C4 & C5 & C6 & _).
  destruct (run_counters es init) as (H1 & H2 & H3 & H4 & _ & H6).
  cbn [scraped_apps skipped_apps error_count rate_limit_count retry_count init]
    in H1, H2, H3, H4, H6.
  rewrite C1, C2, C3, C4, C5, C6, H1, H2, H3, H4, H6, sum_item_counts.
  repeat split.
Qed.

(** ** The progress bar *)





(** ** The entries of the log *)

Lemma last_append {A} (n : nat) (x d : A) (l : list A) :
  last (PyDeque.append (S n) x l) d = x.
Proof.
  unfold PyDeque.append. destruct (List.length l <? S n)%nat; apply last_last.
Qed.

Lemma take_len (n : nat) (s : string) :
  PyStr.len (PyStr.take n s) = Nat.min n (PyStr.len s).
Proof.
  revert n. induction s as [|c r IH]; intros n; cbn [PyStr.take PyStr.len].
  - rewrite Nat.min_0_r. reflexivity.
  - destruct (PyStr.is_continuation c) eqn:C.
    + cbn [PyStr.len]. rewrite C. apply IH.
    + destruct n as [|n]; [reflexivity|]. cbn [PyStr.len]. rewrite C, IH. reflexivity.
Qed.

Lemma take_prefix (n : nat) (s : string) : exists rest, s = PyStr.take n s +++ rest.
Proof.
  revert n. induction s as [|c r IH]; intros n; cbn [PyStr.take].
  - exists EmptyString. reflexivity.
  - destruct (PyStr.is_continuation c).
    + destruct (IH n) as [rest E]. exists rest. cbn [String.append]. rewrite <- E.
      reflexivity.
    + destruct n as [|n]; [exists (String c r); reflexivity|].
      destruct (IH n) as [rest E]. exists rest. cbn [String.append]. rewrite <- E.
      reflexivity.
Qed.

Lemma take_all (n : nat) (s : string) : (PyStr.len s <= n)%nat -> PyStr.take n s = s.
Proof.
  revert n. induction s as [|c r IH]; intros n; cbn [PyStr.take PyStr.len]; [reflexivity|].
  destruct (PyStr.is_continuation c).
  - intros H. rewrite (IH n H). reflexivity.
  - destruct n as [|n]; [lia|]. intros H. rewrite (IH n) by lia. reflexivity.
Qed.

Lemma last_logged_spider_error (now : Q) (failure : option Failure)
    (response : option Response) (s : Dashboard) :
  last_logged (SpiderError now failure response) s = error_entry failure response.
Proof.
  unfold last_logged. handler_exact. unfold refreshed. fields. apply last_append.
Qed.

(** X13. The entry that [spider_error] leaves last in the log has the
    type [error]; its detail is the text of the failure cut after 60
    characters: at most 60 characters long, a prefix of the text, and the
    whole text when that has at most 60.  Without a failure the detail is
    "Unknown error"; without a response the subject is "unknown". *)
Theorem error_detail_is_cut_at_60 (now : Q) (failure : option Failure)
    (response : option Response) (s : Dashboard) :
  let e := last_logged (SpiderError now failure response) s in
  entry_type e = "error" /\
  (PyStr.len (detail e) <= 60)%nat /\
  match failure with
  | Some f =>
      (exists rest, failure_value f = detail e +++ rest) /\
      ((PyStr.len (failure_value f) <= 60)%nat -> detail e = failure_value f)
  | None => detail e = "Unknown error"
  end /\
  (response = None -> subject e = "unknown").
Proof.
  intros e. subst e. rewrite last_logged_spider_error.
  unfold error_entry, entry_type, detail, subject. cbn [fst snd].
  split; [reflexivity|]. split; [|split].
  - destruct failure as [f|].
    + rewrite take_len. lia.
    + cbn. lia.
  - destruct failure as [f|]; [|reflexivity]. split.
    + apply take_prefix.
    + apply take_all.
  - intros ->. reflexivity.
Qed.

Lemma error_detail_is_cut_at_60_witness :
  detail (last_logged
            (SpiderError 1 (Some (mkFailure "HTTP 503 Service Unavailable")) None) init)
  = "HTTP 503 Service Unavailable" /\
  subject (last_logged
             (SpiderError 1 (Some (mkFailure "HTTP 503 Service Unavailable")) None) init)
  = "unknown".
Proof.
  pose proof (error_detail_is_cut_at_60 1 (Some (mkFailure "HTTP 503 Service Unavailable"))
                None init) as T.
  cbv zeta in T. destruct T as (_ & _ & (_ & T) & U). split.
  - apply T. cbn. lia.
  - apply U. reflexivity.
Defined.

Section SplitFacts.
Variable sep : ascii.

Lemma split_nonempty (s : string) : PyStr.split sep s <> [].
Proof.
  destruct s as [|c r]; cbn [PyStr.split]; [discriminate|].
  destruct (Ascii.eqb c sep); [discriminate|].
  destruct (PyStr.split sep r); discriminate.
Qed.

Lemma split_app_sep (a b : string) :
  PyStr.split sep (a +++ String sep b) = PyStr.split sep a ++ PyStr.split sep b.
Proof.
  induction a as [|c r IH]; cbn [String.append PyStr.split].
  - rewrite Ascii.eqb_refl. reflexivity.
  - destruct (Ascii.eqb c sep); [rewrite IH; reflexivity|].
    rewrite IH. pose proof (split_nonempty r) as N.
    destruct (PyStr.split sep r); [contradiction | reflexivity].
Qed.

Lemma split_lacks (b : string) : lacks sep b -> PyStr.split sep b = [b].
Proof.
  unfold lacks. induction b as [|c r IH]; cbn [PyStr.split list_ascii_of_string];
    [reflexivity|].
  intros N. destruct (Ascii.eqb c sep) eqn:E.
  - apply Ascii.eqb_eq in E. exfalso. apply N. left. exact E.
  - rewrite IH; [reflexivity|]. intros I. apply N. right. exact I.
Qed.

Lemma split_segments_lack (s : string) : Forall (lacks sep) (PyStr.split sep s).
Proof.
  unfold lacks. induction s as [|c r IH]; cbn [PyStr.split].
  - repeat constructor. intros [].
  - destruct (Ascii.eqb c sep) eqn:E.
    + constructor; [intros [] | exact IH].
    + destruct (PyStr.split sep r) as [|seg segs].
      * repeat constructor. cbn. intros [H|[]]. subst c.
        rewrite Ascii.eqb_refl in E. discriminate.
      * inversion IH as [|? ? H1 H2]; subst. constructor; [|exact H2].
        cbn. intros [H|H]; [|exact (H1 H)]. subst c.
        rewrite Ascii.eqb_refl in E. discriminate.
Qed.

Lemma last_split_lacks (s : string) : lacks sep (last (PyStr.split sep s) EmptyString).
Proof.
  pose proof (split_segments_lack s) as F. pose proof (split_nonempty s) as N.
  rewrite Forall_forall in F. apply F.
  destruct (PyStr.split sep s) as [|x l]; [contradiction|].
  destruct (exists_last (l := x :: l) ltac:(discriminate)) as (l' & y & ->).
  rewrite last_last. apply in_or_app. right. left. reflexivity.
Qed.

Lemma last_split_app_sep (a b : string) :
  last (PyStr.split sep (a +++ String sep b)) EmptyString
  = last (PyStr.split sep b) EmptyString.
Proof.
  rewrite split_app_sep. pose proof (split_nonempty b) as N.
  destruct (exists_last N) as (l' & y & ->).
  rewrite app_assoc, !last_last. reflexivity.
Qed.

Lemma rstrip_snoc (s : string) :
  PyStr.rstrip sep (s +++ String sep EmptyString) = PyStr.rstrip sep s.
Proof.
  induction s as [|c r IH]; cbn [String.append PyStr.rstrip].
  - rewrite Ascii.eqb_refl. reflexivity.
  - rewrite IH. reflexivity.
Qed.

Lemma rstrip_lacks (b : string) :
  b <> EmptyString -> lacks sep b -> PyStr.rstrip sep b = b.
Proof.
  unfold lacks. induction b as [|c r IH]; [contradiction|].
  intros _ N. cbn [PyStr.rstrip]. destruct r as [|c' r'].
  - cbn [PyStr.rstrip]. destruct (Ascii.eqb c sep) eqn:E; [|reflexivity].
    apply Ascii.eqb_eq in E. exfalso. apply N. left. exact E.
  - rewrite IH; [reflexivity | discriminate |].
    intros I. apply N. right. exact I.
Qed.

Lemma rstrip_app_lacks (a b : string) :
  b <> EmptyString -> lacks sep b -> PyStr.rstrip sep (a +++ b) = a +++ b.
Proof.
  intros B N. induction a as [|c r IH]; cbn [String.append].
  - apply rstrip_lacks; assumption.
  - cbn [PyStr.rstrip]. rewrite IH. destruct (r +++ b) eqn:E; [|reflexivity].
    destruct r; [|discriminate E]. cbn in E. contradiction.
Qed.
End SplitFacts.

Lemma append_assoc (a b c : string) : (a +++ b) +++ c = a +++ b +++ c.
Proof. induction a as [|x a IH]; cbn [String.append]; [|rewrite IH]; reflexivity. Qed.

Lemma last_logged_notify_scraped (now : Q) (app_url : string) (apps : Z) (s : Dashboard) :
  PyDict.get "App" (item_counts s) = Some apps ->
  last_logged (NotifyScraped now app_url) s = success_entry app_url apps.
Proof.
  intros G. unfold last_logged, after. cbn [dispatch].
  rewrite (notify_scraped_exact _ _ _ _ G). cbn [snd]. unfold refreshed. fields.
  apply last_append.
Qed.

Lemma last_logged_response_received (now : Q) (response : Response) (request : Request)
    (s : Dashboard) :
  status response = 429 ->
  last_logged (ResponseReceived now response request) s = rate_limit_entry request.
Proof.
  intros E. unfold last_logged, after. cbn [dispatch].
  rewrite (response_received_exact _ _ _ _ E). cbn [snd]. unfold refreshed. fields.
  apply last_append.
Qed.

(** X14. The subject that [notify_scraped] logs is the last segment of
    the URL after its trailing slashes are dropped: it has no slash, a
    slash added at the end of the URL does not change it, and a URL that
    ends in a slash and a non-empty name without a slash is logged under
    that name.  [response_received] and [spider_error] drop no slash: a
    URL that ends in a slash is logged with the empty subject. *)
Theorem subjects_are_last_url_segments (s : Dashboard) (now : Q) (url : string) :
  reachable s ->
  lacks "/" (subject (last_logged (NotifyScraped now url) s)) /\
  subject (last_logged (NotifyScraped now (url +++ "/")) s)
  = subject (last_logged (NotifyScraped now url) s) /\
  (forall name,
     name <> EmptyString -> lacks "/" name ->
     subject (last_logged (NotifyScraped now (url +++ "/" +++ name)) s) = name) /\
  (forall response,
     status response = 429 ->
     subject (last_logged (ResponseReceived now response (mkRequest (url +++ "/"))) s)
     = EmptyString) /\
  (forall failure code,
     subject (last_logged (SpiderError now failure (Some (mkResponse (url +++ "/") code))) s)
     = EmptyString).
Proof.
  intros R.
  destruct (In_keys_get "App" (item_counts s)) as [apps G].
  { rewrite (inv_keys _ (invariant_reachable s R)). simpl. tauto. }
  rewrite !(last_logged_notify_scraped _ _ _ _ G).
  unfold success_entry, subject. cbn [fst snd].
  split; [apply last_split_lacks|]. split; [rewrite rstrip_snoc; reflexivity|].
  split; [|split].
  - intros name N L. rewrite (last_logged_notify_scraped _ _ _ _ G).
    unfold success_entry. cbn [fst snd].
    assert (A : url +++ "/" +++ name = (url +++ "/") +++ name)
      by (rewrite append_assoc; reflexivity).
    rewrite A, (rstrip_app_lacks "/" (url +++ "/") name N L), <- A.
    change (url +++ "/" +++ name) with (url +++ String "/" name).
    rewrite last_split_app_sep, (split_lacks _ _ L). reflexivity.
  - intros response E. rewrite (last_logged_response_received _ _ _ _ E).
    unfold rate_limit_entry. cbn [fst snd request_url].
    change (url +++ "/") with (url +++ String "/" EmptyString).
    rewrite last_split_app_sep. reflexivity.
  - intros failure code. rewrite last_logged_spider_error.
    unfold error_entry. cbn [fst snd response_url].
    change (url +++ "/") with (url +++ String "/" EmptyString).
    rewrite last_split_app_sep. reflexivity.
Qed.

Lemma subjects_are_last_url_segments_witness :
  subject (last_logged (NotifyScraped 1 ("https://apps.shopify.com" +++ "/" +++ "oberlo")) init)
  = "oberlo" /\
  subject (last_logged
             (ResponseReceived 1 (mkResponse "https://apps.shopify.com/oberlo/" 429)
                (mkRequest ("https://apps.shopify.com/oberlo" +++ "/"))) init)
  = EmptyString.
Proof.
  destruct (subjects_are_last_url_segments init 1 "https://apps.shopify.com" reachable_init)
    as (_ & _ & N & _).
  destruct (subjects_are_last_url_segments init 1 "https://apps.shopify.com/oberlo"
              reachable_init) as (_ & _ & _ & P & _).
  split.
  - apply N; [discriminate|].
    unfold lacks. cbn. intros H. repeat (destruct H as [H|H]; [discriminate|]). exact H.
  - apply (P (mkResponse "https://apps.shopify.com/oberlo/" 429)). reflexivity.
Defined.
